(** * ai-coach: the console conversation loop and its three components

    A shallow embedding of [src/main.py], [src/coach.py], [src/stt.py] and
    [src/tts.py].  Python strings are sequences of Unicode code points, the
    file system is a finite map from paths to file contents, and every
    method is a computation in a state-and-exception monad over the
    observable world (files, console output, and a ghost trace of the calls
    that were made).  The external collaborators (Ollama, Faster-Whisper,
    sounddevice, Piper, the audio players, the operating system) are the
    fields of an environment record. *)

From Stdlib Require Import ZArith NArith List Ascii String Lia.
From stdpp Require Import base option list gmap pretty.

Local Open Scope N_scope.

(** ** Python [str] *)

Module PyStr.

(** A [str] is a sequence of code points. *)
Abbreviation str := (list N).

(** A literal of the source, written in ASCII. *)
Definition lit (s : string) : str :=
  map N_of_ascii (list_ascii_of_string s).

Arguments lit : simpl never.

Definition nl : str := [10].

(** [str.isspace] on one code point, the table [str.strip()] uses
    (CPython's [_PyUnicode_IsWhitespace]). *)
Definition is_space (c : N) : bool :=
  ((9 <=? c) && (c <=? 13)) || ((28 <=? c) && (c <=? 32))
  || (c =? 133) || (c =? 160) || (c =? 5760)
  || ((8192 <=? c) && (c <=? 8202))
  || (c =? 8232) || (c =? 8233) || (c =? 8239) || (c =? 8287)
  || (c =? 12288).

(** [s.lstrip()]: the scan from the left stops at the first code point
    that is not whitespace. *)
Fixpoint lstrip (s : str) : str :=
  match s with
  | [] => []
  | c :: r => if is_space c then lstrip r else s
  end.

(** [s.rstrip()]: the scan from the right, written by recursion on the
    list: a code point is dropped when everything after it was. *)
Fixpoint rstrip (s : str) : str :=
  match s with
  | [] => []
  | c :: r =>
      match rstrip r with
      | [] => if is_space c then [] else [c]
      | r' => c :: r'
      end
  end.

(** [s.strip()] *)
Definition strip (s : str) : str := rstrip (lstrip s).

(** [sep.join(items)], as the interpreter's loop: the separator is
    written before every item but the first. *)
Definition join_step (sep : str) (acc : bool * str) (item : str) : bool * str :=
  let '(first, out) := acc in
  (false, if first then item else out ++ sep ++ item).

Definition join (sep : str) (items : list str) : str :=
  snd (fold_left (join_step sep) items (true, [])).

(** [not s] *)
Definition falsy (s : str) : bool :=
  match s with [] => true | _ => false end.

(** ASCII letters and their lower case. *)
Definition is_ascii (c : N) : bool := c <? 128.

Definition ascii_lower (c : N) : N :=
  if (65 <=? c) && (c <=? 90) then c + 32 else c.

(** [blank s]: every code point of [s] is whitespace. *)
Definition blank (s : str) : bool := forallb is_space s.

End PyStr.
Import PyStr.

(** ** The observable world *)

Abbreviation path := (list N).

(** What a file holds.  [WaveFile] is what the [wave] module writes: the
    header fields and the PCM samples. *)
Inductive file : Type :=
| TextFile (content : str)
| WaveFile (nchannels sampwidth framerate : Z) (frames : list Z)
| BinaryFile (data : list N).

(** The exceptions that travel through the program.  The first five are
    raised by the program itself or by the calls it makes into [os],
    [tempfile], [subprocess] and [input]; [External] stands for whatever a
    collaborator raises (a connection error of the chat client, a PortAudio
    error, an [OSError] when a process cannot be started, ...).  All of
    them derive from [Exception].  [External] records where an exception
    comes from, not its Python class: the [FileNotFoundError] that
    [subprocess.run] raises for a program that is not installed is an
    [External] here, and the constructor [FileNotFoundError] is kept for
    the ones the program raises itself and for [os.unlink]. *)
Inductive exn : Type :=
| FileNotFoundError (msg : str)
| FileExistsError (p : path)
| RuntimeError (msg : str)
| KeyError (key : str)
| CalledProcessError (returncode : Z)
| EOFError
| External (what : str).

Inductive res (A : Type) : Type :=
| Ok (a : A)
| Raise (e : exn).
Arguments Ok {A} a.
Arguments Raise {A} e.

(** What a collaborator gives back: a value, or the exception it raised. *)
Inductive answer (A : Type) : Type :=
| Answer (a : A)
| Failure (what : str).
Arguments Answer {A} a.
Arguments Failure {A} what.

(** One entry of the list passed as [messages=] to [client.chat]. *)
Record Message : Type := { role : str; content : str }.

(** The part of the chat response the program reads:
    [response["message"]["content"]]. *)
Record ChatResponse : Type := { message_content : str }.

(** A segment of the recognition backend; only [.text] is read. *)
Record Segment : Type := { seg_text : str }.

(** The configuration mapping: section, then key. *)
Abbreviation Config := (gmap str (gmap str str)).

(** The ghost trace: one event at the entry of each component method and
    one at each call that leaves the process. *)
Inductive Event : Type :=
| EvRecord (seconds : Z)
| EvTranscribe (wav_path : path) (language : option str)
| EvReply (user_text : str)
| EvSpeak (text : option str)
| EvChat (model : str) (messages : list Message)
| EvRun (cmd : list str) (stdin : option file).

Record World : Type := {
  fs : gmap path file;      (* the regular files that exist *)
  out : list str;           (* what was written to the console, in order *)
  trace : list Event        (* the calls made so far, in order *)
}.

(** What the synthesis process did to the file named by [-f]. *)
Inductive OutputEffect : Type :=
| Untouched
| Written (f : file)
| Removed.

(** [subprocess.run] either raises (the program could not be started) or
    returns a completed process. *)
Inductive Completed : Type :=
| ProcRaise (what : str)
| ProcExit (returncode : Z) (stderr : str) (output : OutputEffect).

(** ** The environment

    Everything the program calls and does not define.  Each collaborator
    sees the world at the moment of the call, so its answer may differ from
    one call to the next.  The processes started by [subprocess.run] are
    confined: the synthesis process changes at most the file named by its
    [-f] argument, and an audio player changes no file; neither reads the
    console. *)
Record Env : Type := {
  (* the interpreter *)
  str_lower : str -> str;
  (* os.path, platform, tempfile, time, uuid *)
  abspath : path -> path;
  path_join : path -> str -> path;
  platform_system : str;
  tmp_name : World -> str -> path;
  time_time : World -> Z;
  uuid4_hex : World -> str;
  (* yaml.safe_load on the opened configuration file *)
  yaml_load : World -> path -> answer Config;
  (* ollama.Client().chat *)
  ollama_chat : World -> str -> list Message -> answer ChatResponse;
  (* faster_whisper.WhisperModel(...) and its .transcribe *)
  whisper_init : World -> str -> str -> str -> option str;
  whisper_transcribe :
    World -> path -> option str -> bool -> Z -> answer (list Segment);
  (* sounddevice.rec followed by sounddevice.wait *)
  sd_rec : World -> Z -> Z -> option Z -> answer (list Z);
  (* subprocess.run on the synthesis executable and on an audio player *)
  run_synth : World -> list str -> path -> file -> Completed;
  run_player : World -> list str -> Completed
}.

(** ** The monad: state over [World], exceptions as results *)

Definition M (A : Type) : Type := World -> res A * World.

#[global] Instance M_ret : MRet M := fun A a w => (Ok a, w).

#[global] Instance M_bind : MBind M := fun A B k m w =>
  match m w with
  | (Ok a, w') => k a w'
  | (Raise e, w') => (Raise e, w')
  end.

Definition raise {A : Type} (e : exn) : M A := fun w => (Raise e, w).

Definition get_world : M World := fun w => (Ok w, w).

Definition log (e : Event) : M unit := fun w =>
  (Ok tt, {| fs := fs w; out := out w; trace := trace w ++ [e] |}).

Definition write_out (s : str) : M unit := fun w =>
  (Ok tt, {| fs := fs w; out := out w ++ [s]; trace := trace w |}).

(** [try: m except Exception as e: handler e] *)
Definition try_except {A : Type} (m : M A) (handler : exn -> M A) : M A :=
  fun w =>
    match m w with
    | (Ok a, w') => (Ok a, w')
    | (Raise e, w') => handler e w'
    end.

(** [print(s)] *)
Definition print (s : str) : M unit := write_out (s ++ nl).

Definition set_fs (f : gmap path file -> gmap path file) : M unit := fun w =>
  (Ok tt, {| fs := f (fs w); out := out w; trace := trace w |}).

(** [os.path.isfile(p)] *)
Definition isfile (p : path) : M bool := fun w =>
  (Ok (bool_decide (is_Some (fs w !! p))), w).

(** [os.unlink(p)] and [os.remove(p)]: the same call. *)
Definition os_unlink (p : path) : M unit := fun w =>
  match fs w !! p with
  | Some _ => set_fs (delete p) w
  | None => (Raise (FileNotFoundError p), w)
  end.

Definition os_remove : path -> M unit := os_unlink.

(** [open(p, "r")] as far as the reader sees it: the contents. *)
Definition open_read (p : path) : M file := fun w =>
  match fs w !! p with
  | Some f => (Ok f, w)
  | None => (Raise (FileNotFoundError p), w)
  end.

(** ** coach.py *)

Module coach.
Section Coach.
Context (env : Env).

Record CoachEngine : Type := {
  cfg : Config;
  model : str;
  system_prompt : str
}.

(** [cfg["coach"]["model_name"]]: a missing key raises [KeyError]. *)
Definition getitem2 (c : Config) (section key : str) : M str :=
  match c !! section with
  | None => raise (KeyError section)
  | Some sec =>
      match sec !! key with
      | None => raise (KeyError key)
      | Some v => mret v
      end
  end.

(** [CoachEngine.__init__] *)
Definition init (c : Config) : M CoachEngine :=
  m ← getitem2 c (lit "coach") (lit "model_name");
  p ← getitem2 c (lit "coach") (lit "system_prompt");
  mret {| cfg := c; model := m; system_prompt := p |}.

(** [self.client.chat(model=..., messages=...)] *)
Definition client_chat (mdl : str) (messages : list Message) : M ChatResponse :=
  log (EvChat mdl messages);;
  w ← get_world;
  match ollama_chat env w mdl messages with
  | Answer r => mret r
  | Failure what => raise (External what)
  end.

(** [CoachEngine.reply] *)
Definition reply (self : CoachEngine) (user_text : str) : M str :=
  log (EvReply user_text);;
  let messages :=
    [ {| role := lit "system"; content := system_prompt self |};
      {| role := lit "user"; content := user_text |} ] in
  response ← client_chat (model self) messages;
  let ai_reply := strip (message_content response) in
  mret ai_reply.

(** [DEFAULT_SYSTEM_PROMPT] *)
Definition DEFAULT_SYSTEM_PROMPT : str :=
  nl
  ++ lit "You are a friendly and thoughtful life coach." ++ nl
  ++ lit "Your goal is to help the user reflect, clarify objectives, and find actionable steps." ++ nl
  ++ lit "Rules:" ++ nl
  ++ lit "- Use a conversational, empathetic tone." ++ nl
  ++ lit "- Ask 1-2 open-ended questions per reply." ++ nl
  ++ lit "- End with a micro-action the user can do within 24 hours." ++ nl
  ++ lit "- Keep answers under 120 words." ++ nl
  ++ lit "- Avoid medical, clinical, or psychological diagnoses." ++ nl
  ++ lit "- Always encourage self-reflection and autonomy." ++ nl
  ++ lit "Language: Italian." ++ nl.

End Coach.
End coach.

(** ** stt.py *)

Module stt.
Section Stt.
Context (env : Env).

Record SpeechToText : Type := {
  model_size : str;
  sample_rate : Z;
  audio_dir : path;
  device_index : option Z
}.

(** [SpeechToText.__init__]: the recognition model is built once, here.
    [fs] holds regular files only, so the creation of the audio directory
    is not part of the world, and the weights the model may download on a
    first run go to a cache outside it: of this constructor the world
    shows only whether building the model failed. *)
Definition init (size : str) (rate : Z) (dir : path)
    (device : option Z) (compute_type : str) : M SpeechToText :=
  w ← get_world;
  match whisper_init env w size (lit "cuda") compute_type with
  | Some what => raise (External what)
  | None =>
      mret {| model_size := size; sample_rate := rate;
              audio_dir := dir; device_index := device |}
  end.

Definition decimal (z : Z) : str := lit (pretty z).

(** [SpeechToText.record_wav], for a whole number of seconds (the loop
    passes 6); [f"{seconds:.1f}"] is then the decimal followed by ".0".
    The audio directory exists since [__init__], and writing the WAV is
    taken to succeed: the only failure followed here is the device's. *)
Definition record_wav (self : SpeechToText) (seconds : Z) : M path :=
  log (EvRecord seconds);;
  w ← get_world;
  let fname :=
    path_join env (audio_dir self)
      (lit "rec_" ++ decimal (time_time env w) ++ lit "_"
       ++ take 6 (uuid4_hex env w) ++ lit ".wav") in
  let frames := (sample_rate self * seconds)%Z in
  print (lit "[STT] Recording " ++ decimal seconds ++ lit ".0s at "
         ++ decimal (sample_rate self) ++ lit " Hz...");;
  w ← get_world;
  match sd_rec env w frames (sample_rate self) (device_index self) with
  | Failure what => raise (External what)
  | Answer audio =>
      print (lit "[STT] Done recording.");;
      set_fs (insert fname (WaveFile 1 2 (sample_rate self) audio));;
      mret fname
  end.

(** [SpeechToText.transcribe] *)
Definition transcribe (self : SpeechToText) (wav_path : path)
    (language : option str) (beam_size : Z) (vad_filter : bool) : M str :=
  log (EvTranscribe wav_path language);;
  w ← get_world;
  match whisper_transcribe env w wav_path language vad_filter beam_size with
  | Failure what => raise (External what)
  | Answer segments =>
      let text :=
        strip (join (lit " ") (map (fun seg => strip (seg_text seg)) segments)) in
      mret text
  end.

End Stt.
End stt.

(** ** tts.py *)

Module tts.
Section Tts.
Context (env : Env).

Record TextToSpeech : Type := {
  piper_dir : path;
  exe : path;
  model : path;
  config : path
}.

(** The loop of [__init__] over the two voice files. *)
Fixpoint check_voices (ps : list path) : M unit :=
  match ps with
  | [] => mret tt
  | p :: rest =>
      b ← isfile p;
      if negb b then raise (FileNotFoundError (lit "Voce non trovata: " ++ p))
      else check_voices rest
  end.

(** [TextToSpeech.__init__] *)
Definition init (dir : path) (model_name : str) : M TextToSpeech :=
  let self_piper_dir := abspath env dir in
  let self_exe := path_join env self_piper_dir (lit "piper.exe") in
  let self_model := path_join env self_piper_dir (model_name ++ lit ".onnx") in
  let self_config :=
    path_join env self_piper_dir (model_name ++ lit ".onnx.json") in
  b ← isfile self_exe;
  if negb b then
    raise (FileNotFoundError (lit "piper.exe non trovato in " ++ self_piper_dir))
  else
    check_voices [self_model; self_config];;
    mret {| piper_dir := self_piper_dir; exe := self_exe;
            model := self_model; config := self_config |}.

(** [tempfile.NamedTemporaryFile(suffix=..., delete=False)]: the file is
    created exclusively, so a name that is taken is an error and a name
    that is returned is new. *)
Definition NamedTemporaryFile (suffix : str) (empty : file) : M path :=
  w ← get_world;
  let p := tmp_name env w suffix in
  match fs w !! p with
  | Some _ => raise (FileExistsError p)
  | None => set_fs (insert p empty);; mret p
  end.

(** [tf.write(...)] and the end of the [with] block; every string is
    taken to encode, so the write itself does not fail. *)
Definition write_text (p : path) (s : str) : M unit :=
  set_fs (insert p (TextFile s)).

Definition apply_output (p : path) (o : OutputEffect) : M unit :=
  match o with
  | Untouched => mret tt
  | Written f => set_fs (insert p f)
  | Removed => set_fs (delete p)
  end.

(** [subprocess.run(cmd, cwd=..., stdin=..., ...)] on the synthesis
    executable; the result is [(returncode, stderr)]. *)
Definition subprocess_run_synth (cmd : list str) (cwd : path)
    (stdin : file) (out_path : path) : M (Z * str) :=
  log (EvRun cmd (Some stdin));;
  w ← get_world;
  match run_synth env w cmd cwd stdin with
  | ProcRaise what => raise (External what)
  | ProcExit rc err o => apply_output out_path o;; mret (rc, err)
  end.

(** [subprocess.run(cmd)] on an audio player; the result is the return
    code. *)
Definition subprocess_run_player (cmd : list str) : M Z :=
  log (EvRun cmd None);;
  w ← get_world;
  match run_player env w cmd with
  | ProcRaise what => raise (External what)
  | ProcExit rc _ _ => mret rc
  end.

(** [subprocess.run(player, check=True, ...)]: a non-zero return code
    becomes [CalledProcessError]. *)
Definition subprocess_run_check (cmd : list str) : M unit :=
  rc ← subprocess_run_player cmd;
  if (rc =? 0)%Z then mret tt else raise (CalledProcessError rc).

(** The [for player in (...)] loop of [_play_wav]: the first player that
    runs ends the search, and any [Exception] moves on to the next. *)
Fixpoint try_players (players : list (list str)) (wav_path : path) : M unit :=
  match players with
  | [] =>
      print (lit "WAV creato in: " ++ wav_path
             ++ lit " (nessun player disponibile)")
  | player :: rest =>
      played ← try_except (subprocess_run_check player;; mret true)
                          (fun _ => mret false);
      if played : bool then mret tt else try_players rest wav_path
  end.

(** [TextToSpeech._play_wav] *)
Definition _play_wav (wav_path : path) : M unit :=
  let system := platform_system env in
  if bool_decide (system = lit "Windows") then
    subprocess_run_player
      [lit "powershell"; lit "-c";
       lit "(New-Object Media.SoundPlayer '" ++ wav_path
       ++ lit "').PlaySync();"];;
    mret tt
  else if bool_decide (system = lit "Darwin") then
    subprocess_run_player [lit "afplay"; wav_path];;
    mret tt
  else
    try_players
      [ [lit "aplay"; wav_path];
        [lit "paplay"; wav_path];
        [lit "ffplay"; lit "-autoexit"; lit "-nodisp"; wav_path] ]
      wav_path.

Definition synth_cmd (self : TextToSpeech) (wav_path : path) : list str :=
  [ exe self; lit "-m"; model self; lit "-c"; config self;
    lit "--sentence_silence"; lit "0.4";
    lit "-f"; wav_path ].

(** [TextToSpeech.speak]; the argument is [None] or a string. *)
Definition speak (self : TextToSpeech) (text : option str) : M unit :=
  log (EvSpeak text);;
  match text with
  | None => mret tt
  | Some text =>
      if falsy text then mret tt
      else
        txt_path ← NamedTemporaryFile (lit ".txt") (TextFile []);
        write_text txt_path (strip text);;
        wav_path ← NamedTemporaryFile (lit ".wav") (BinaryFile []);
        let cmd := synth_cmd self wav_path in
        stdin ← open_read txt_path;
        '(returncode, stderr) ←
          subprocess_run_synth cmd (piper_dir self) stdin wav_path;
        os_unlink txt_path;;
        wav_exists ← isfile wav_path;
        if negb (returncode =? 0)%Z || negb wav_exists then
          raise (RuntimeError
                   (lit "Piper fallito (code=" ++ stt.decimal returncode
                    ++ lit ")." ++ nl ++ lit "STDERR:" ++ nl ++ stderr))
        else
          _play_wav wav_path;;
          os_remove wav_path
  end.

End Tts.
End tts.

(** ** main.py *)

Module main.
Section Main.
Context (env : Env).

(** [load_config] *)
Definition load_config (p : path) : M Config :=
  w ← get_world;
  match yaml_load env w p with
  | Answer c => mret c
  | Failure what => raise (External what)
  end.

(** [d.setdefault(key, value)] *)
Definition setdefault (key value : str) (d : gmap str str) : gmap str str :=
  match d !! key with
  | Some _ => d
  | None => <[key := value]> d
  end.

(** How the process ends, and how one pass through the loop body ends. *)
Inductive Outcome : Type :=
| Ended
| Crashed (e : exn).

Inductive Control : Type :=
| Break
| Continue.

Definition prompt : str := lit "You (press ENTER to speak): ".

(** [user_input.lower() in ("quit", "exit")] *)
Definition is_exit (user_input : str) : bool :=
  bool_decide (str_lower env user_input ∈ [lit "quit"; lit "exit"]).

(** The body of [while True], after [input(...)] has returned [line]. *)
Definition loop_body (coach : coach.CoachEngine) (stt : stt.SpeechToText)
    (tts : tts.TextToSpeech) (line : str) : M Control :=
  let user_input := strip line in
  if is_exit user_input then
    print (lit "Session ended.");;
    mret Break
  else
    user_input ←
      (if bool_decide (user_input = []) then
         wav_path ← stt.record_wav env stt 6;
         user_input ← stt.transcribe env stt wav_path (Some (lit "it")) 1 true;
         print (lit "[Transcript] " ++ user_input);;
         mret user_input
       else mret user_input);
    if falsy user_input then
      print (lit "(Got empty input, try again)" ++ nl);;
      mret Continue
    else
      reply ← coach.reply env coach user_input;
      print (lit "Coach: " ++ reply ++ nl);;
      tts.speak env tts (Some reply);;
      tts.speak env tts (Some reply);;
      mret Continue.

(** [while True: ...] over the lines the console still holds.  [input]
    writes its prompt, then returns the next line or raises [EOFError]
    when there is none.  An exception that leaves the body leaves the
    loop, and the process with it.  The result carries the lines that
    were not read. *)
Fixpoint conversation_loop (coach : coach.CoachEngine)
    (stt : stt.SpeechToText) (tts : tts.TextToSpeech)
    (stdin : list str) (w : World) : Outcome * World * list str :=
  let w1 := snd (write_out prompt w) in
  match stdin with
  | [] => (Crashed EOFError, w1, [])
  | line :: rest =>
      match loop_body coach stt tts line w1 with
      | (Raise e, w2) => (Crashed e, w2, rest)
      | (Ok Break, w2) => (Ended, w2, rest)
      | (Ok Continue, w2) => conversation_loop coach stt tts rest w2
      end
  end.

(** Everything [__main__] does before the loop. *)
Definition startup
  : M (coach.CoachEngine * stt.SpeechToText * tts.TextToSpeech) :=
  cfg ← load_config (lit "config/settings.yaml");
  let cfg :=
    if bool_decide (is_Some (cfg !! lit "coach")) then cfg
    else <[lit "coach" := ∅]> cfg in
  let cfg :=
    alter (setdefault (lit "system_prompt") coach.DEFAULT_SYSTEM_PROMPT)
          (lit "coach") cfg in
  coach ← coach.init cfg;
  stt ← stt.init env (lit "small") 16000 (lit "data/audio_raw") None (lit "int8");
  tts ← tts.init env (lit "models/piper") (lit "en_US-amy-medium");
  print (nl ++ lit "=== Coach AI (offline) ===");;
  print (lit "Press ENTER to record voice (6s) or type your message.");;
  print (lit "Type 'quit' to exit." ++ nl);;
  mret (coach, stt, tts).

(** [if __name__ == "__main__":] *)
Definition main (stdin : list str) (w : World) : Outcome * World * list str :=
  match startup w with
  | (Raise e, w') => (Crashed e, w', stdin)
  | (Ok (coach, stt, tts), w') => conversation_loop coach stt tts stdin w'
  end.

End Main.
End main.

(** ** A concrete environment

    A Linux machine on which everything works; the variants below break
    one collaborator at a time. *)

Module Demo.

Definition cfg0 : Config :=
  {[ lit "coach" := {[ lit "model_name" := lit "llama3.1:8b" ]} ]}.

Definition a_wave : file := WaveFile 1 2 22050 [0; 1; 0]%Z.

Definition synth_ok (w : World) (cmd : list str) (cwd : path) (stdin : file)
  : Completed := ProcExit 0 [] (Written a_wave).

Definition chat_ok (w : World) (mdl : str) (ms : list Message)
  : answer ChatResponse :=
  Answer {| message_content := lit "  Try writing down one goal for tomorrow. " ++ nl |}.

Definition whisper_ok (w : World) (p : path) (lang : option str)
    (vad : bool) (beam : Z) : answer (list Segment) :=
  Answer [ {| seg_text := lit " Mi sento" |}; {| seg_text := lit " bloccato. " |} ].

Definition mk_env
    (chat : World -> str -> list Message -> answer ChatResponse)
    (whisper : World -> path -> option str -> bool -> Z -> answer (list Segment))
    (synth : World -> list str -> path -> file -> Completed) : Env :=
  {| str_lower := map ascii_lower;
     abspath := fun p => lit "/app/" ++ p;
     path_join := fun d f => d ++ lit "/" ++ f;
     platform_system := lit "Linux";
     tmp_name := fun w suffix =>
       lit "/tmp/tmp" ++ stt.decimal (Z.of_nat (length (trace w))) ++ suffix;
     time_time := fun _ => 1700000000%Z;
     uuid4_hex := fun _ => lit "3f2a9c0d5e6b47a1b2c3d4e5f6071829";
     yaml_load := fun _ _ => Answer cfg0;
     ollama_chat := chat;
     whisper_init := fun _ _ _ _ => None;
     whisper_transcribe := whisper;
     sd_rec := fun _ _ _ _ => Answer [0; 0; 0]%Z;
     run_synth := synth;
     run_player := fun _ _ => ProcExit 0 [] Untouched |}.

Definition env : Env := mk_env chat_ok whisper_ok synth_ok.

(** The synthesis executable cannot be started ([piper.exe] on Linux). *)
Definition synth_no_exec (w : World) (cmd : list str) (cwd : path)
    (stdin : file) : Completed :=
  ProcRaise (lit "OSError: [Errno 8] Exec format error").

Definition env_no_exec : Env := mk_env chat_ok whisper_ok synth_no_exec.

(** The synthesis process exits with code 1 and leaves its output file. *)
Definition synth_fails (w : World) (cmd : list str) (cwd : path)
    (stdin : file) : Completed :=
  ProcExit 1 (lit "voice not loaded") Untouched.

Definition env_synth_fails : Env := mk_env chat_ok whisper_ok synth_fails.

(** The chat server is not running. *)
Definition chat_down (w : World) (mdl : str) (ms : list Message)
  : answer ChatResponse :=
  Failure (lit "ConnectionError").

Definition env_offline : Env := mk_env chat_down whisper_ok synth_ok.

(** The voice assets are installed, nothing else exists yet. *)
Definition disk : gmap path file :=
  {[ lit "/app/models/piper/piper.exe" := BinaryFile [77; 90];
     lit "/app/models/piper/en_US-amy-medium.onnx" := BinaryFile [8];
     lit "/app/models/piper/en_US-amy-medium.onnx.json" := TextFile (lit "{}") ]}.

Definition w0 : World := {| fs := disk; out := []; trace := [] |}.

Definition the_coach : coach.CoachEngine :=
  {| coach.cfg := cfg0; coach.model := lit "llama3.1:8b";
     coach.system_prompt := coach.DEFAULT_SYSTEM_PROMPT |}.

Definition the_stt : stt.SpeechToText :=
  {| stt.model_size := lit "small"; stt.sample_rate := 16000;
     stt.audio_dir := lit "data/audio_raw"; stt.device_index := None |}.

Definition the_tts : tts.TextToSpeech :=
  {| tts.piper_dir := lit "/app/models/piper";
     tts.exe := lit "/app/models/piper/piper.exe";
     tts.model := lit "/app/models/piper/en_US-amy-medium.onnx";
     tts.config := lit "/app/models/piper/en_US-amy-medium.onnx.json" |}.

End Demo.


(** ** The specification's vocabulary *)

Module Spec.

(** A string is trimmed when neither end is whitespace. *)
Definition trimmed (s : str) : bool :=
  match head s, last s with
  | Some a, Some b => negb (is_space a) && negb (is_space b)
  | _, _ => true
  end.

(** Texts written one after the other with a single space between two
    neighbours. *)
Fixpoint spaced (texts : list str) : str :=
  match texts with
  | [] => []
  | [t] => t
  | t :: rest => t ++ lit " " ++ spaced rest
  end.

(** The transcript of a sequence of segments, in the specification's
    words: the trimmed segment texts, single-space separated, the
    result trimmed. *)
Definition transcript (segments : list Segment) : str :=
  strip (spaced (map (fun seg => strip (seg_text seg)) segments)).

(** [s] is [keyword] up to the case of ASCII letters. *)
Definition caseless (s keyword : str) : Prop :=
  map ascii_lower s = map ascii_lower keyword.

Definition exit_keyword (s : str) : Prop :=
  caseless s (lit "quit") \/ caseless s (lit "exit").

(** What is assumed of [str.lower()]: on a string of ASCII code points
    it lowers the letters A to Z and keeps the rest. *)
Definition lower_on_ascii (env : Env) : Prop :=
  forall s, forallb is_ascii s = true -> str_lower env s = map ascii_lower s.

(** Counting the events of one kind in a trace. *)
Definition is_speak (e : Event) : bool :=
  match e with EvSpeak _ => true | _ => false end.
Definition is_reply (e : Event) : bool :=
  match e with EvReply _ => true | _ => false end.
Definition is_run (e : Event) : bool :=
  match e with EvRun _ _ => true | _ => false end.
Definition is_chat (e : Event) : bool :=
  match e with EvChat _ _ => true | _ => false end.
Definition is_stt (e : Event) : bool :=
  match e with EvRecord _ | EvTranscribe _ _ => true | _ => false end.

Definition count (p : Event -> bool) (tr : list Event) : nat :=
  length (filter (fun e => p e = true) tr).

(** The world after [e] was logged. *)
Definition logged (e : list Event) (w : World) : World :=
  {| fs := fs w; out := out w; trace := trace w ++ e |}.

(** The world after [s] was written to the console. *)
Definition printed (s : list str) (w : World) : World :=
  {| fs := fs w; out := out w ++ s; trace := trace w |}.

(** The request [CoachEngine.reply] builds for [user_text]. *)
Definition request (self : coach.CoachEngine) (user_text : str)
  : list Message :=
  [ {| role := lit "system"; content := coach.system_prompt self |};
    {| role := lit "user"; content := user_text |} ].

(** [w'] is [w] with more trace, every new event a started process, and
    the same files; only the console may have been written to. *)
Definition only_ran (w w' : World) : Prop :=
  fs w' = fs w
  /\ exists evs, trace w' = trace w ++ evs /\ forallb is_run evs = true.

(** The files after the synthesis process changed the one named by
    [-f]. *)
Definition output_applied (p : path) (o : OutputEffect)
    (files : gmap path file) : gmap path file :=
  match o with
  | Untouched => files
  | Written f => <[p := f]> files
  | Removed => delete p files
  end.

Definition is_removed (o : OutputEffect) : bool :=
  match o with Removed => true | _ => false end.

(** The error of [speak] when synthesis failed. *)
Definition piper_failed (returncode : Z) (stderr : str) : exn :=
  RuntimeError (lit "Piper fallito (code=" ++ stt.decimal returncode
                ++ lit ")." ++ nl ++ lit "STDERR:" ++ nl ++ stderr).

(** The name [speak] gets for its text file when it starts in [w]. *)
Definition txt_path (env : Env) (text : str) (w : World) : path :=
  tmp_name env (logged [EvSpeak (Some text)] w) (lit ".txt").

(** The three files [TextToSpeech.__init__] looks for. *)
Definition exe_path (env : Env) (dir : path) : path :=
  path_join env (abspath env dir) (lit "piper.exe").
Definition model_path (env : Env) (dir : path) (model_name : str) : path :=
  path_join env (abspath env dir) (model_name ++ lit ".onnx").
Definition config_path (env : Env) (dir : path) (model_name : str) : path :=
  path_join env (abspath env dir) (model_name ++ lit ".onnx.json").

Definition assets_present (env : Env) (dir : path) (model_name : str)
    (files : gmap path file) : Prop :=
  is_Some (files !! exe_path env dir)
  /\ is_Some (files !! model_path env dir model_name)
  /\ is_Some (files !! config_path env dir model_name).

(** The last statements of the loop body, from [coach.reply] on. *)
Definition reply_and_speak (env : Env) (coach : coach.CoachEngine)
    (tts : tts.TextToSpeech) (user_input : str) : M main.Control :=
  reply ← coach.reply env coach user_input;
  print (lit "Coach: " ++ reply ++ nl);;
  tts.speak env tts (Some reply);;
  tts.speak env tts (Some reply);;
  mret main.Continue.

End Spec.
Import Spec.

(** ** stt.py, the device helper *)

Module devices.

(** One entry of [sd.query_devices()], as far as the helper reads it;
    [None] is a key the entry does not have. *)
Record Device : Type := {
  name : option str;
  max_input_channels : option Z
}.

(** [dev.get("max_input_channels", 0)] *)
Definition input_channels (dev : Device) : Z :=
  default 0%Z (max_input_channels dev).

(** [f"[{idx}] {dev['name']}  (in={dev['max_input_channels']})"] *)
Definition device_line (idx : nat) (dev_name : str) (channels : Z) : str :=
  lit "[" ++ stt.decimal (Z.of_nat idx) ++ lit "] " ++ dev_name
  ++ lit "  (in=" ++ stt.decimal channels ++ lit ")".

(** The [for idx, dev in enumerate(...)] loop, from index [idx] on, with
    the lines collected so far. *)
Fixpoint collect (idx : nat) (devs : list Device) (lines : list str)
  : res (list str) :=
  match devs with
  | [] => Ok lines
  | dev :: rest =>
      if (0 <? input_channels dev)%Z then
        match name dev with
        | None => Raise (KeyError (lit "name"))
        | Some dev_name =>
            collect (S idx) rest
              (lines ++ [device_line idx dev_name (input_channels dev)])
        end
      else collect (S idx) rest lines
  end.

(** [SpeechToText.list_input_devices], given what [sd.query_devices()]
    answered. *)
Definition list_input_devices (query : answer (list Device))
  : res (list str) :=
  match query with
  | Failure what => Raise (External what)
  | Answer devs => collect 0 devs []
  end.

(** A device the helper lists. *)
Definition is_input (dev : Device) : bool := (0 <? input_channels dev)%Z.

End devices.

(** ** stt.py, the quick manual test *)

Module stt_script.

Definition lift {A : Type} (r : res A) : M A := fun w => (r, w).

(** The [if __name__ == "__main__":] block of stt.py, given what
    [sd.query_devices()] answers. *)
Definition quick_test (env : Env) (query : answer (list devices.Device))
  : M unit :=
  print (lit "Available input devices:");;
  lines ← lift (devices.list_input_devices query);
  print (join nl lines);;
  stt ← stt.init env (lit "small") 16000 (lit "data/audio_raw") None
          (lit "int8");
  wav ← stt.record_wav env stt 6;
  text ← stt.transcribe env stt wav (Some (lit "en")) 1 true;
  print (nl ++ lit "[TRANSCRIPT]");;
  print (if falsy text then lit "(empty)" else text).

End stt_script.

(** ** Environments that differ from another in one collaborator *)

Module Vary.

Definition with_player (player : World -> list str -> Completed)
    (e : Env) : Env :=
  {| str_lower := str_lower e; abspath := abspath e; path_join := path_join e;
     platform_system := platform_system e; tmp_name := tmp_name e;
     time_time := time_time e; uuid4_hex := uuid4_hex e;
     yaml_load := yaml_load e; ollama_chat := ollama_chat e;
     whisper_init := whisper_init e;
     whisper_transcribe := whisper_transcribe e; sd_rec := sd_rec e;
     run_synth := run_synth e; run_player := player |}.

Definition with_platform (system : str) (e : Env) : Env :=
  {| str_lower := str_lower e; abspath := abspath e; path_join := path_join e;
     platform_system := system; tmp_name := tmp_name e;
     time_time := time_time e; uuid4_hex := uuid4_hex e;
     yaml_load := yaml_load e; ollama_chat := ollama_chat e;
     whisper_init := whisper_init e;
     whisper_transcribe := whisper_transcribe e; sd_rec := sd_rec e;
     run_synth := run_synth e; run_player := run_player e |}.


Definition with_yaml (load : World -> path -> answer Config) (e : Env) : Env :=
  {| str_lower := str_lower e; abspath := abspath e; path_join := path_join e;
     platform_system := platform_system e; tmp_name := tmp_name e;
     time_time := time_time e; uuid4_hex := uuid4_hex e;
     yaml_load := load; ollama_chat := ollama_chat e;
     whisper_init := whisper_init e;
     whisper_transcribe := whisper_transcribe e; sd_rec := sd_rec e;
     run_synth := run_synth e; run_player := run_player e |}.

(** No player is installed: every attempt to start one fails. *)
Definition no_player (w : World) (cmd : list str) : Completed :=
  ProcRaise (lit "FileNotFoundError: player").

(** A player that starts and exits with code 1. *)
Definition player_exits_1 (w : World) (cmd : list str) : Completed :=
  ProcExit 1 [] Untouched.

(** Only [paplay] works. *)
Definition only_paplay (w : World) (cmd : list str) : Completed :=
  if bool_decide (head cmd = Some (lit "paplay")) then ProcExit 0 [] Untouched
  else ProcRaise (lit "FileNotFoundError: player").


(** The recognition backend hears nothing but silence. *)
Definition whisper_silence (w : World) (p : path) (lang : option str)
    (vad : bool) (beam : Z) : answer (list Segment) :=
  Answer [ {| seg_text := lit "  " |}; {| seg_text := [] |} ].


(** A configuration file with a prompt of its own, and one without a
    coach section. *)
Definition cfg_with_prompt : Config :=
  {[ lit "coach" := {[ lit "model_name" := lit "llama3.1:8b";
                       lit "system_prompt" := lit "Be brief." ]} ]}.

Definition cfg_no_coach : Config := {[ lit "audio" := ∅ ]}.

End Vary.

(** ** More vocabulary *)

Module More.

(** The exceptions a turn of this model ends with; [exn] says what each
    constructor stands for. *)
Definition turn_error (e : exn) : Prop :=
  match e with
  | External _ | FileExistsError _ | RuntimeError _ => True
  | _ => False
  end.

(** The stages of [speak] on [text] started in [w]: the world once the
    text file is written, the name of the output file, and the world the
    synthesis process sees. *)
Definition world_with_text (env : Env) (text : str) (w : World) : World :=
  {| fs := <[txt_path env text w := TextFile (strip text)]> (fs w);
     out := out w;
     trace := trace (logged [EvSpeak (Some text)] w) |}.

Definition wav_path (env : Env) (text : str) (w : World) : path :=
  tmp_name env (world_with_text env text w) (lit ".wav").

Definition world_at_synthesis (env : Env) (self : tts.TextToSpeech)
    (text : str) (w : World) : World :=
  {| fs := <[wav_path env text w := BinaryFile []]>
             (fs (world_with_text env text w));
     out := out w;
     trace := trace (logged [EvSpeak (Some text)] w)
              ++ [EvRun (tts.synth_cmd self (wav_path env text w))
                        (Some (TextFile (strip text)))] |}.

(** The players [_play_wav] tries outside Windows and macOS, in order. *)
Definition fallback_players (wav : path) : list (list str) :=
  [ [lit "aplay"; wav];
    [lit "paplay"; wav];
    [lit "ffplay"; lit "-autoexit"; lit "-nodisp"; wav] ].

Definition other_platform (env : Env) : Prop :=
  platform_system env <> lit "Windows" /\ platform_system env <> lit "Darwin".

(** [cmd] started in [w] ran and exited with code 0. *)
Definition plays (env : Env) (cmd : list str) (w : World) : bool :=
  match run_player env (logged [EvRun cmd None] w) cmd with
  | ProcExit rc _ _ => (rc =? 0)%Z
  | ProcRaise _ => false
  end.

(** The coach section of the configuration as [__main__] completes it. *)
Definition completed_config (cfg : Config) : Config :=
  alter (main.setdefault (lit "system_prompt") coach.DEFAULT_SYSTEM_PROMPT)
    (lit "coach")
    (if bool_decide (is_Some (cfg !! lit "coach")) then cfg
     else <[lit "coach" := ∅]> cfg).

(** [cfg["coach"][key]] when both exist. *)
Definition coach_setting (cfg : Config) (key : str) : option str :=
  sec ← cfg !! lit "coach"; sec !! key.

(** The single player [_play_wav] starts on Windows and on macOS. *)
Definition native_player (env : Env) (wav : path) : list str :=
  if bool_decide (platform_system env = lit "Windows") then
    [lit "powershell"; lit "-c";
     lit "(New-Object Media.SoundPlayer '" ++ wav ++ lit "').PlaySync();"]
  else [lit "afplay"; wav].

Definition no_player_notice (wav : path) : str :=
  (lit "WAV creato in: " ++ wav ++ lit " (nessun player disponibile)") ++ nl.

Definition ran (cmds : list (list str)) : list Event :=
  map (fun cmd => EvRun cmd None) cmds.

(** The user text of the turn on [line] started in [w], with the world
    in which the reply engine is called: the stripped line when there is
    one, else the transcript of the recording when it is not empty. *)
Definition turn_text (env : Env) (stt : stt.SpeechToText) (line : str)
    (w : World) (u : str) (wu : World) : Prop :=
  (strip line <> [] /\ u = strip line /\ wu = w)
  \/ (strip line = []
      /\ exists wav w1 w2,
           stt.record_wav env stt 6 w = (Ok wav, w1)
           /\ stt.transcribe env stt wav (Some (lit "it")) 1 true w1
              = (Ok u, w2)
           /\ u <> []
           /\ wu = printed [(lit "[Transcript] " ++ u) ++ nl] w2).

(** In the turn on [line] started in [w], a call into the transcriber,
    the reply engine or the speaker raises [e] and leaves the world [w']:
    [transcribe] after the recording, [reply] on the user text, or the
    first or the second [speak] on the reply. *)
Inductive component_raises (env : Env) (coach : coach.CoachEngine)
    (stt : stt.SpeechToText) (tts : tts.TextToSpeech) (line : str)
    (w : World) : exn -> World -> Prop :=
| transcriber_raises (wav : path) (w1 : World) (e : exn) (w2 : World) :
    strip line = [] ->
    stt.record_wav env stt 6 w = (Ok wav, w1) ->
    stt.transcribe env stt wav (Some (lit "it")) 1 true w1 = (Raise e, w2) ->
    component_raises env coach stt tts line w e w2
| reply_engine_raises (u : str) (wu : World) (e : exn) (w1 : World) :
    turn_text env stt line w u wu ->
    coach.reply env coach u wu = (Raise e, w1) ->
    component_raises env coach stt tts line w e w1
| speaker_raises_first (u : str) (wu : World) (reply : str) (w1 : World)
    (e : exn) (w2 : World) :
    turn_text env stt line w u wu ->
    coach.reply env coach u wu = (Ok reply, w1) ->
    tts.speak env tts (Some reply)
      (printed [(lit "Coach: " ++ reply ++ nl) ++ nl] w1) = (Raise e, w2) ->
    component_raises env coach stt tts line w e w2
| speaker_raises_second (u : str) (wu : World) (reply : str) (w1 w2 : World)
    (e : exn) (w3 : World) :
    turn_text env stt line w u wu ->
    coach.reply env coach u wu = (Ok reply, w1) ->
    tts.speak env tts (Some reply)
      (printed [(lit "Coach: " ++ reply ++ nl) ++ nl] w1) = (Ok tt, w2) ->
    tts.speak env tts (Some reply) w2 = (Raise e, w3) ->
    component_raises env coach stt tts line w e w3.

(** Every turn on [lines], started in [w], went back to the prompt. *)
Fixpoint turns_complete (env : Env) (coach : coach.CoachEngine)
    (stt : stt.SpeechToText) (tts : tts.TextToSpeech) (lines : list str)
    (w : World) : Prop :=
  match lines with
  | [] => True
  | line :: rest =>
      exists w2,
        main.loop_body env coach stt tts line (printed [main.prompt] w)
        = (Ok main.Continue, w2)
        /\ turns_complete env coach stt tts rest w2
  end.

(** The commands [_play_wav] may start for [wav]. *)
Definition player_command (env : Env) (wav : path) (cmd : list str) : Prop :=
  cmd = native_player env wav \/ cmd ∈ fallback_players wav.

(** The recorder the quick test of stt.py builds. *)
Definition test_recorder : stt.SpeechToText :=
  {| stt.model_size := lit "small"; stt.sample_rate := 16000;
     stt.audio_dir := lit "data/audio_raw"; stt.device_index := None |}.

(** The key [CoachEngine.__init__] fails on: the first of coach,
    model_name and system_prompt that the configuration lacks. *)
Definition first_missing_key (c : Config) : str :=
  match c !! lit "coach" with
  | None => lit "coach"
  | Some sec =>
      match sec !! lit "model_name" with
      | None => lit "model_name"
      | Some _ => lit "system_prompt"
      end
  end.

Definition banner : list str :=
  [ (nl ++ lit "=== Coach AI (offline) ===") ++ nl;
    lit "Press ENTER to record voice (6s) or type your message." ++ nl;
    (lit "Type 'quit' to exit." ++ nl) ++ nl ].

End More.
Import More.

(** * Properties *)

(** ** Strings *)

Section StrFacts.

Lemma lstrip_blank (a s : str) :
  blank a = true -> lstrip (a ++ s) = lstrip s.
Proof.
  induction a as [|c a IH]; simpl; [done|].
  intros [Hc Ha]%andb_true_iff. rewrite Hc. auto.
Qed.

Lemma rstrip_nil (s : str) : blank s = true -> rstrip s = [].
Proof.
  induction s as [|c s IH]; simpl; [done|].
  intros [Hc Hs]%andb_true_iff. rewrite IH, Hc; done.
Qed.

Lemma rstrip_nil_inv (s : str) : rstrip s = [] -> blank s = true.
Proof.
  induction s as [|c s IH]; simpl; [done|].
  destruct (rstrip s) eqn:E; [|done].
  destruct (is_space c); [|done]. intros _. simpl. auto.
Qed.

Lemma rstrip_blank (s b : str) :
  blank b = true -> rstrip (s ++ b) = rstrip s.
Proof.
  intros Hb. induction s as [|c s IH]; simpl.
  - by apply rstrip_nil.
  - by rewrite IH.
Qed.

Lemma lstrip_split (s : str) :
  exists a, s = a ++ lstrip s /\ blank a = true.
Proof.
  induction s as [|c s [a [E Ha]]]; simpl.
  - by exists [].
  - destruct (is_space c) eqn:Hc.
    + exists (c :: a). simpl. rewrite Hc, Ha. split; [f_equal; exact E|done].
    + by exists [].
Qed.

Lemma rstrip_split (s : str) :
  exists b, s = rstrip s ++ b /\ blank b = true.
Proof.
  induction s as [|c s [b [E Hb]]]; simpl.
  - by exists [].
  - destruct (rstrip s) as [|d r] eqn:Er.
    + destruct (is_space c) eqn:Hc.
      * exists (c :: s). split; [done|]. simpl. rewrite Hc. simpl.
        by apply rstrip_nil_inv.
      * exists b. simpl in E. split; [simpl; congruence|done].
    + exists b. split; [|done]. simpl in E |- *. congruence.
Qed.

Lemma strip_split (s : str) :
  exists a b, s = a ++ strip s ++ b /\ blank a = true /\ blank b = true.
Proof.
  destruct (lstrip_split s) as [a [Ea Ha]].
  destruct (rstrip_split (lstrip s)) as [b [Eb Hb]].
  exists a, b. unfold strip. split; [|done]. congruence.
Qed.

Lemma strip_blank (s : str) : blank s = true -> strip s = [].
Proof.
  intros H. unfold strip.
  rewrite <- (app_nil_r s), lstrip_blank by done. done.
Qed.

Lemma lstrip_head (s : str) (c : N) :
  head (lstrip s) = Some c -> is_space c = false.
Proof.
  induction s as [|d s IH]; simpl; [done|].
  destruct (is_space d) eqn:Hd; [done|]. simpl. congruence.
Qed.

Lemma rstrip_head (s : str) (c : N) :
  head (rstrip s) = Some c -> head s = Some c.
Proof.
  destruct s as [|d s]; simpl; [done|].
  destruct (rstrip s); [destruct (is_space d)|]; simpl; congruence.
Qed.

Lemma rstrip_last (s : str) (c : N) :
  last (rstrip s) = Some c -> is_space c = false.
Proof.
  induction s as [|d s IH]; simpl; [done|].
  destruct (rstrip s) as [|e r] eqn:Er.
  - destruct (is_space d) eqn:Hd; simpl; congruence.
  - simpl. simpl in IH. done.
Qed.

(** The result of [strip] has no whitespace at either end. *)
Lemma strip_trimmed (s : str) : trimmed (strip s) = true.
Proof.
  unfold trimmed, strip.
  destruct (head (rstrip (lstrip s))) as [a|] eqn:Ha; [|done].
  destruct (last (rstrip (lstrip s))) as [b|] eqn:Hb; [|done].
  apply rstrip_head, lstrip_head in Ha. apply rstrip_last in Hb.
  by rewrite Ha, Hb.
Qed.

Lemma rstrip_id (s : str) (b : N) :
  last s = Some b -> is_space b = false -> rstrip s = s.
Proof.
  induction s as [|c s IH]; simpl; [done|].
  destruct s as [|d s].
  - simpl. intros [= ->] ->. done.
  - intros Hl Hb. rewrite IH by done. done.
Qed.

(** A trimmed string is left alone by [strip]. *)
Lemma strip_id (s : str) : trimmed s = true -> strip s = s.
Proof.
  unfold trimmed, strip. destruct s as [|a s]; [done|].
  simpl head. destruct (last (a :: s)) as [b|] eqn:Hb.
  - intros [Ha Hb']%andb_true_iff.
    apply negb_true_iff in Ha, Hb'. simpl. rewrite Ha.
    by apply rstrip_id with b.
  - by apply last_None in Hb.
Qed.

Lemma strip_idem (s : str) : strip (strip s) = strip s.
Proof. apply strip_id, strip_trimmed. Qed.

(** Whitespace around a string does not survive [strip]. *)
Lemma strip_padding (a s b : str) :
  blank a = true -> blank b = true -> strip (a ++ s ++ b) = strip s.
Proof.
  intros Ha Hb. unfold strip. rewrite lstrip_blank by done.
  destruct (lstrip_split s) as [a' [E Ha']].
  destruct (decide (lstrip s = [])) as [Hn|Hn].
  - rewrite Hn. rewrite E, Hn, app_nil_r.
    rewrite <- (app_nil_r (a' ++ b)), lstrip_blank; [done|].
    unfold blank in *. rewrite forallb_app. by rewrite Ha', Hb.
  - assert (lstrip (s ++ b) = lstrip s ++ b) as ->.
    { rewrite E at 1. rewrite <- app_assoc, lstrip_blank by done.
      destruct (lstrip s) as [|c r] eqn:El; [done|].
      assert (is_space c = false) as Hc by (apply (lstrip_head s); by rewrite El).
      simpl. by rewrite Hc. }
    by apply rstrip_blank.
Qed.

(** The interpreter's [join] is the specification's [spaced]. *)
Lemma join_fold (sep acc : str) (items : list str) :
  snd (fold_left (join_step sep) items (false, acc))
  = fold_left (fun out item => out ++ sep ++ item) items acc.
Proof.
  revert acc. induction items as [|x items IH]; intros acc; simpl; [done|].
  apply IH.
Qed.

Lemma fold_join_app (sep acc : str) (items : list str) :
  fold_left (fun out item => out ++ sep ++ item) items acc
  = acc ++ fold_left (fun out item => out ++ sep ++ item) items [].
Proof.
  revert acc. induction items as [|x items IH]; intros acc; simpl.
  - by rewrite app_nil_r.
  - rewrite IH. rewrite (IH (sep ++ x)). by rewrite <- !app_assoc.
Qed.

Lemma join_spaced (items : list str) : join (lit " ") items = spaced items.
Proof.
  unfold join. destruct items as [|x items]; [done|].
  simpl fold_left. rewrite join_fold.
  revert x. induction items as [|y items IH]; intros x; [done|].
  cbn [fold_left]. rewrite fold_join_app.
  change (spaced (x :: y :: items)) with (x ++ lit " " ++ spaced (y :: items)).
  rewrite <- IH, (fold_join_app _ y). by rewrite <- !app_assoc.
Qed.

End StrFacts.

(** ** The monad *)

Section MonadFacts.

Lemma bind_run {A B : Type} (m : M A) (k : A -> M B) (w : World) :
  (m ≫= k) w =
  match m w with
  | (Ok a, w') => k a w'
  | (Raise e, w') => (Raise e, w')
  end.
Proof. reflexivity. Qed.

Lemma log_run (e : Event) (w : World) : log e w = (Ok tt, logged [e] w).
Proof. reflexivity. Qed.

Lemma logged_logged (e1 e2 : list Event) (w : World) :
  logged e2 (logged e1 w) = logged (e1 ++ e2) w.
Proof. unfold logged; simpl. by rewrite app_assoc. Qed.

Lemma print_run (s : str) (w : World) :
  print s w = (Ok tt, printed [s ++ nl] w).
Proof. reflexivity. Qed.

End MonadFacts.

(** Run the monad's plumbing, leaving the collaborators' calls in place. *)
Ltac run_monad :=
  cbv [mbind M_bind mret M_ret raise get_world log write_out print set_fs
       isfile os_unlink os_remove open_read try_except logged printed];
  cbn [fs out trace].

Tactic Notation "msimpl" := cbn beta iota delta [fs out trace].
Tactic Notation "msimpl" "in" hyp(H) := cbn beta iota delta [fs out trace] in H.

Ltac run_monad_in H :=
  cbv [mbind M_bind mret M_ret raise get_world log write_out print set_fs
       isfile os_unlink os_remove open_read try_except logged printed] in H;
  cbn [fs out trace] in H.

(** ** ReplyEngine *)

Lemma reply_run (env : Env) (self : coach.CoachEngine) (user_text : str)
    (w : World) :
  coach.reply env self user_text w =
  let w' := logged [EvReply user_text;
                    EvChat (coach.model self) (request self user_text)] w in
  match ollama_chat env w' (coach.model self) (request self user_text) with
  | Answer r => (Ok (strip (message_content r)), w')
  | Failure what => (Raise (External what), w')
  end.
Proof.
  unfold coach.reply, coach.client_chat, request. run_monad.
  rewrite <- app_assoc. cbn [app].
  by destruct (ollama_chat env _ _ _).
Qed.

(** C3. For every non-empty [user_text], [reply] makes one request to the
    chat backend, carrying exactly two messages: the system message with
    the configured prompt, then the user message with [user_text]; and it
    returns the content of the response with the whitespace at both ends
    removed and nothing else changed. *)
Theorem reply_two_messages_trimmed_content (env : Env)
    (self : coach.CoachEngine) (user_text : str) (w : World)
    (r : ChatResponse) :
  user_text <> [] ->
  ollama_chat env
    (logged [EvReply user_text;
             EvChat (coach.model self)
               [ {| role := lit "system"; content := coach.system_prompt self |};
                 {| role := lit "user"; content := user_text |} ]] w)
    (coach.model self)
    [ {| role := lit "system"; content := coach.system_prompt self |};
      {| role := lit "user"; content := user_text |} ]
  = Answer r ->
  exists reply w',
    coach.reply env self user_text w = (Ok reply, w')
    /\ fs w' = fs w /\ out w' = out w
    /\ trace w' =
       trace w ++
       [ EvReply user_text;
         EvChat (coach.model self)
           [ {| role := lit "system"; content := coach.system_prompt self |};
             {| role := lit "user"; content := user_text |} ] ]
    /\ reply = strip (message_content r)
    /\ trimmed reply = true
    /\ exists a b, message_content r = a ++ reply ++ b
                   /\ blank a = true /\ blank b = true.
Proof.
  intros _ Hchat. rewrite reply_run. cbv zeta. unfold request. rewrite Hchat.
  unfold logged.
  eexists _, _. split; [reflexivity|]. repeat split.
  - apply strip_trimmed.
  - apply strip_split.
Qed.

Lemma reply_two_messages_trimmed_content_witness :
  exists reply w',
    coach.reply Demo.env Demo.the_coach (lit "I feel stuck at work") Demo.w0
    = (Ok reply, w')
    /\ reply = lit "Try writing down one goal for tomorrow.".
Proof.
  destruct (reply_two_messages_trimmed_content Demo.env Demo.the_coach
              (lit "I feel stuck at work") Demo.w0
              {| message_content :=
                   lit "  Try writing down one goal for tomorrow. " ++ nl |})
    as (reply & w' & Hrun & _ & _ & _ & Hreply & _).
  - discriminate.
  - reflexivity.
  - exists reply, w'. split; [exact Hrun|]. rewrite Hreply. reflexivity.
Defined.

(** ** Transcriber *)

Lemma transcribe_run (env : Env) (self : stt.SpeechToText) (wav_path : path)
    (language : option str) (beam_size : Z) (vad_filter : bool) (w : World) :
  stt.transcribe env self wav_path language beam_size vad_filter w =
  let w' := logged [EvTranscribe wav_path language] w in
  match whisper_transcribe env w' wav_path language vad_filter beam_size with
  | Answer segments => (Ok (transcript segments), w')
  | Failure what => (Raise (External what), w')
  end.
Proof.
  unfold stt.transcribe, transcript. run_monad.
  destruct (whisper_transcribe env _ _ _ _ _); [|done].
  by rewrite join_spaced.
Qed.

Lemma transcript_nil : transcript [] = [].
Proof. reflexivity. Qed.

(** C9. Whatever finite sequence of segments the recognition backend
    yields, [transcribe] returns the segment texts, each trimmed, written
    with single spaces between them, and the whole trimmed again; with no
    segment at all the result is the empty string. *)
Theorem transcribe_joins_trimmed_segments (env : Env)
    (self : stt.SpeechToText) (wav_path : path) (language : option str)
    (beam_size : Z) (vad_filter : bool) (w : World)
    (segments : list Segment) :
  whisper_transcribe env (logged [EvTranscribe wav_path language] w)
    wav_path language vad_filter beam_size = Answer segments ->
  stt.transcribe env self wav_path language beam_size vad_filter w
  = (Ok (strip (spaced (map (fun seg => strip (seg_text seg)) segments))),
     logged [EvTranscribe wav_path language] w)
  /\ trimmed (strip (spaced (map (fun seg => strip (seg_text seg)) segments)))
     = true
  /\ (segments = [] ->
      stt.transcribe env self wav_path language beam_size vad_filter w
      = (Ok [], logged [EvTranscribe wav_path language] w)).
Proof.
  intros Hw. rewrite transcribe_run. cbv zeta. rewrite Hw.
  split; [done|]. split; [apply strip_trimmed|]. by intros ->.
Qed.

Lemma transcribe_joins_trimmed_segments_witness :
  stt.transcribe Demo.env Demo.the_stt (lit "rec.wav") (Some (lit "it")) 1 true
    Demo.w0
  = (Ok (lit "Mi sento bloccato."),
     logged [EvTranscribe (lit "rec.wav") (Some (lit "it"))] Demo.w0).
Proof.
  destruct (transcribe_joins_trimmed_segments Demo.env Demo.the_stt
              (lit "rec.wav") (Some (lit "it")) 1 true Demo.w0
              [ {| seg_text := lit " Mi sento" |};
                {| seg_text := lit " bloccato. " |} ]) as [Hrun _].
  - reflexivity.
  - rewrite Hrun. reflexivity.
Defined.

(** ** Speaker *)

Lemma only_ran_refl (w : World) : only_ran w w.
Proof. split; [done|]. exists []. by rewrite app_nil_r. Qed.

Lemma only_ran_trans (w1 w2 w3 : World) :
  only_ran w1 w2 -> only_ran w2 w3 -> only_ran w1 w3.
Proof.
  intros [F1 (e1 & T1 & R1)] [F2 (e2 & T2 & R2)]. split; [congruence|].
  exists (e1 ++ e2). rewrite T2, T1, app_assoc. split; [done|].
  rewrite forallb_app. by rewrite R1, R2.
Qed.

Lemma run_player_frame (env : Env) (cmd : list str) (w : World)
    (r : res Z) (w' : World) :
  tts.subprocess_run_player env cmd w = (r, w') -> only_ran w w'.
Proof.
  unfold tts.subprocess_run_player. run_monad.
  destruct (run_player env _ _); intros [= <- <-];
    (split; [done|]; by exists [EvRun cmd None]).
Qed.

Lemma try_players_frame (env : Env) (players : list (list str))
    (wav_path : path) (w : World) (r : res unit) (w' : World) :
  tts.try_players env players wav_path w = (r, w') -> only_ran w w'.
Proof.
  revert w. induction players as [|player rest IH]; intros w;
    cbn [tts.try_players].
  - rewrite print_run. intros [= <- <-]. split; [done|].
    exists []. by rewrite app_nil_r.
  - unfold tts.subprocess_run_check. run_monad.
    destruct (tts.subprocess_run_player env player w) as [[rc|e] w1] eqn:E;
      apply run_player_frame in E.
    + destruct (rc =? 0)%Z.
      * intros [= <- <-]. done.
      * intros H. apply IH in H. by apply only_ran_trans with w1.
    + intros H. apply IH in H. by apply only_ran_trans with w1.
Qed.

Lemma play_wav_frame (env : Env) (wav_path : path) (w : World)
    (r : res unit) (w' : World) :
  tts._play_wav env wav_path w = (r, w') -> only_ran w w'.
Proof.
  unfold tts._play_wav.
  destruct (bool_decide _); [|destruct (bool_decide _)].
  - run_monad.
    destruct (tts.subprocess_run_player env _ w) as [[rc|e] w1] eqn:E;
      apply run_player_frame in E; by intros [= <- <-].
  - run_monad.
    destruct (tts.subprocess_run_player env _ w) as [[rc|e] w1] eqn:E;
      apply run_player_frame in E; by intros [= <- <-].
  - apply try_players_frame.
Qed.

(** On Linux [_play_wav] never raises: every failure of a player is
    caught. *)
Lemma try_players_ok (env : Env) (players : list (list str))
    (wav_path : path) (w : World) :
  exists w', tts.try_players env players wav_path w = (Ok tt, w').
Proof.
  revert w. induction players as [|player rest IH]; intros w;
    cbn [tts.try_players].
  - rewrite print_run. by eexists.
  - unfold tts.subprocess_run_check. run_monad.
    destruct (tts.subprocess_run_player env player w) as [[rc|e] w1].
    + destruct (rc =? 0)%Z; [by eexists|apply IH].
    + apply IH.
Qed.

(** [speak] on a non-empty text, stage by stage. *)
Lemma speak_run (env : Env) (self : tts.TextToSpeech) (text : str) (w : World) :
  text <> [] ->
  let w1 := logged [EvSpeak (Some text)] w in
  let txt := tmp_name env w1 (lit ".txt") in
  let w2 := {| fs := <[txt := TextFile (strip text)]> (fs w);
               out := out w; trace := trace w1 |} in
  let wav := tmp_name env w2 (lit ".wav") in
  let stdin := TextFile (strip text) in
  let w3 := {| fs := <[wav := BinaryFile []]> (fs w2); out := out w;
               trace := trace w1 ++ [EvRun (tts.synth_cmd self wav) (Some stdin)] |} in
  tts.speak env self (Some text) w =
  match fs w !! txt with
  | Some _ => (Raise (FileExistsError txt), w1)
  | None =>
    match fs w2 !! wav with
    | Some _ => (Raise (FileExistsError wav), w2)
    | None =>
      match run_synth env w3 (tts.synth_cmd self wav) (tts.piper_dir self) stdin with
      | ProcRaise what => (Raise (External what), w3)
      | ProcExit rc err o =>
          let w4 := {| fs := delete txt (output_applied wav o (fs w3));
                       out := out w; trace := trace w3 |} in
          if negb (rc =? 0)%Z || is_removed o then (Raise (piper_failed rc err), w4)
          else
            match tts._play_wav env wav w4 with
            | (Ok _, w5) =>
                (Ok tt, {| fs := delete wav (fs w5); out := out w5;
                           trace := trace w5 |})
            | (Raise e, w5) => (Raise e, w5)
            end
      end
    end
  end.
Proof.
  intros Hne. destruct text as [|c text]; [done|]. clear Hne.
  cbv zeta. unfold tts.speak. cbn [falsy].
  unfold tts.NamedTemporaryFile, tts.write_text, tts.subprocess_run_synth,
    tts.apply_output, piper_failed.
  run_monad.
  set (txt := tmp_name env _ (lit ".txt")).
  destruct (fs w !! txt) eqn:Htxt; msimpl; [done|].
  rewrite insert_insert_eq.
  set (wav := tmp_name env _ (lit ".wav")).
  destruct (_ !! wav) eqn:Hwav; msimpl; [done|].
  assert (wav <> txt) as Hd.
  { intros E. rewrite E, lookup_insert_eq in Hwav. done. }
  rewrite lookup_insert_ne, lookup_insert_eq by done. msimpl.
  destruct (run_synth env _ _ _ _) as [what|rc err o]; msimpl; [done|].
  assert (forall (x : file), bool_decide (is_Some (Some x)) = true) as Hs by done.
  assert (bool_decide (is_Some (@None file)) = false) as Hn by done.
  destruct o as [|f|]; msimpl;
    rewrite ?lookup_delete_ne, ?lookup_insert_ne, ?lookup_insert_eq by done;
    msimpl;
    rewrite ?lookup_delete_ne, ?lookup_delete_eq, ?lookup_insert_ne,
      ?lookup_insert_eq, ?Hs, ?Hn by done;
    cbn [is_removed output_applied negb orb]; rewrite ?orb_true_r, ?orb_false_r;
    try done.
  all: destruct (negb (rc =? 0)%Z); [done|].
  all: destruct (tts._play_wav env wav _) as [[[]|e] w5] eqn:E; [|done].
  all: apply play_wav_frame in E as [Hfs _]; msimpl; rewrite Hfs; msimpl.
  all: rewrite ?lookup_delete_ne, ?lookup_insert_ne, ?lookup_insert_eq by done.
  all: done.
Qed.



Lemma speak_falsy (env : Env) (self : tts.TextToSpeech) (text : option str)
    (w : World) :
  text = None \/ text = Some [] ->
  tts.speak env self text w = (Ok tt, logged [EvSpeak text] w).
Proof. by intros [-> | ->]. Qed.

(** What every exit of [speak] on a non-empty text has in common, and
    what holds of the exits that got past the synthesis process. *)
Lemma speak_shape (env : Env) (self : tts.TextToSpeech) (text : str)
    (w w' : World) (r : res unit) :
  text <> [] ->
  tts.speak env self (Some text) w = (r, w') ->
  exists evs,
    trace w' = trace w ++ EvSpeak (Some text) :: evs
    /\ forallb is_run evs = true
    /\ (r = Ok tt -> fs w' = fs w)
    /\ (r = Ok tt \/ (exists msg, r = Raise (RuntimeError msg)) ->
        fs w !! txt_path env text w = None
        /\ fs w' !! txt_path env text w = None
        /\ exists wav evs',
             evs = EvRun (tts.synth_cmd self wav) (Some (TextFile (strip text)))
                   :: evs').
Proof.
  intros Hne. rewrite speak_run by done. cbv zeta. fold (txt_path env text w).
  set (txt := txt_path env text w).
  destruct (fs w !! txt) eqn:Htxt.
  { intros [= <- <-]. exists []. cbn. split_and!; try done.
    intros [|[? ?]]; done. }
  set (wav := tmp_name env _ (lit ".wav")). msimpl.
  destruct (_ !! wav) eqn:Hwav.
  { intros [= <- <-]. exists []. cbn. split_and!; try done.
    intros [|[? ?]]; done. }
  assert (wav <> txt) as Hd.
  { intros E. rewrite E, lookup_insert_eq in Hwav. done. }
  rewrite lookup_insert_ne in Hwav by done.
  destruct (run_synth env _ _ _ _) as [what|rc err o].
  { intros [= <- <-]. eexists [_]. cbn. rewrite <- app_assoc.
    split_and!; try done. intros [|[? ?]]; done. }
  destruct (negb (rc =? 0)%Z || is_removed o) eqn:Hfail.
  { intros [= <- <-]. eexists [_]. cbn. rewrite <- app_assoc.
    split_and!; try done. intros _. rewrite lookup_delete_eq.
    split_and!; try done. by eexists _, _. }
  destruct (tts._play_wav env wav _) as [[[]|e] w5] eqn:E;
    apply play_wav_frame in E as [Hfs (evs & Htr & Hrun)];
    msimpl in Hfs; msimpl in Htr; intros [= <- <-]; msimpl;
    exists (EvRun (tts.synth_cmd self wav) (Some (TextFile (strip text))) :: evs);
    (split; [rewrite Htr; cbn [logged trace]; rewrite <- !app_assoc; done|]);
    (split; [done|]).
  - apply orb_false_iff in Hfail as [_ Ho].
    assert (delete wav (delete txt (output_applied wav o
              (<[wav:=BinaryFile []]> (<[txt:=TextFile (strip text)]> (fs w)))))
            = fs w) as Hback.
    { apply map_eq. intros k.
      destruct (decide (k = wav)) as [->|Hkw]; [by rewrite lookup_delete_eq|].
      rewrite lookup_delete_ne by done.
      destruct (decide (k = txt)) as [->|Hkt]; [by rewrite lookup_delete_eq|].
      rewrite lookup_delete_ne by done.
      destruct o; cbn [output_applied];
        rewrite ?lookup_delete_ne, ?lookup_insert_ne by done; done. }
    rewrite Hfs, Hback. split; [done|]. intros _.
    split_and!; try done. by eexists _, _.
  - split; [done|]. intros _. rewrite Hfs, lookup_delete_eq.
    split_and!; try done. by eexists _, _.
Qed.







Lemma speak_any (env : Env) (self : tts.TextToSpeech) (text : option str)
    (w w' : World) (r : res unit) :
  tts.speak env self text w = (r, w') ->
  exists evs,
    trace w' = trace w ++ EvSpeak text :: evs
    /\ forallb is_run evs = true
    /\ (r = Ok tt -> fs w' = fs w).
Proof.
  destruct text as [[|c text]|].
  - rewrite speak_falsy by auto. intros [= <- <-]. by exists [].
  - intros H. apply speak_shape in H as (evs & Htr & Hrun & Hfs & _); [|done].
    by exists evs.
  - rewrite speak_falsy by auto. intros [= <- <-]. by exists [].
Qed.

(** ** The conversation loop *)

(** The three ways through the loop body. *)
Lemma loop_body_exit (env : Env) (coach : coach.CoachEngine)
    (stt : stt.SpeechToText) (tts : tts.TextToSpeech) (line : str) (w : World) :
  main.is_exit env (strip line) = true ->
  main.loop_body env coach stt tts line w
  = (Ok main.Break, printed [lit "Session ended." ++ nl] w).
Proof. intros H. unfold main.loop_body. by rewrite H. Qed.

Lemma loop_body_text (env : Env) (coach : coach.CoachEngine)
    (stt : stt.SpeechToText) (tts : tts.TextToSpeech) (line : str) (w : World) :
  main.is_exit env (strip line) = false ->
  strip line <> [] ->
  main.loop_body env coach stt tts line w
  = reply_and_speak env coach tts (strip line) w.
Proof.
  intros Hx Hne. unfold main.loop_body, reply_and_speak. rewrite Hx.
  rewrite bool_decide_eq_false_2 by done.
  destruct (strip line) as [|c u] eqn:Hu; [done|].
  run_monad. cbn [falsy]. reflexivity.
Qed.

Lemma loop_body_voice (env : Env) (coach : coach.CoachEngine)
    (stt : stt.SpeechToText) (tts : tts.TextToSpeech) (line : str) (w : World) :
  main.is_exit env (strip line) = false ->
  strip line = [] ->
  main.loop_body env coach stt tts line w
  = match stt.record_wav env stt 6 w with
    | (Raise e, w1) => (Raise e, w1)
    | (Ok wav_path, w1) =>
        match stt.transcribe env stt wav_path (Some (lit "it")) 1 true w1 with
        | (Raise e, w2) => (Raise e, w2)
        | (Ok user_input, w2) =>
            let w3 := printed [(lit "[Transcript] " ++ user_input) ++ nl] w2 in
            if falsy user_input then
              (Ok main.Continue,
               printed [(lit "(Got empty input, try again)" ++ nl) ++ nl] w3)
            else reply_and_speak env coach tts user_input w3
        end
    end.
Proof.
  intros Hx Hu. unfold main.loop_body, reply_and_speak. rewrite Hx, Hu.
  rewrite bool_decide_eq_true_2 by done. run_monad.
  destruct (stt.record_wav env stt 6 w) as [[wav|e] w1]; [|done].
  destruct (stt.transcribe env stt wav _ _ _ w1) as [[t|e] w2]; [|done].
  msimpl. by destruct (falsy t).
Qed.

Lemma record_wav_run (env : Env) (self : stt.SpeechToText) (seconds : Z)
    (w : World) :
  let w1 := logged [EvRecord seconds] w in
  let fname :=
    path_join env (stt.audio_dir self)
      (lit "rec_" ++ stt.decimal (time_time env w1) ++ lit "_"
       ++ take 6 (uuid4_hex env w1) ++ lit ".wav") in
  let w2 :=
    printed [(lit "[STT] Recording " ++ stt.decimal seconds ++ lit ".0s at "
              ++ stt.decimal (stt.sample_rate self) ++ lit " Hz...") ++ nl] w1 in
  stt.record_wav env self seconds w =
  match sd_rec env w2 (stt.sample_rate self * seconds)%Z
          (stt.sample_rate self) (stt.device_index self) with
  | Failure what => (Raise (External what), w2)
  | Answer audio =>
      (Ok fname,
       {| fs := <[fname := WaveFile 1 2 (stt.sample_rate self) audio]> (fs w);
          out := out w2 ++ [lit "[STT] Done recording." ++ nl];
          trace := trace w1 |})
  end.
Proof.
  cbv zeta. unfold stt.record_wav. run_monad.
  by destruct (sd_rec env _ _ _ _).
Qed.

(** The end of a turn that has a user text: one request to the reply
    engine, then the speaker. *)
Lemma reply_and_speak_shape (env : Env) (coach : coach.CoachEngine)
    (tts : tts.TextToSpeech) (u : str) (w w' : World) (r : res main.Control) :
  reply_and_speak env coach tts u w = (r, w') ->
  exists evs,
    trace w' = trace w ++ EvReply u
                 :: EvChat (coach.model coach) (request coach u) :: evs
    /\ forallb (fun e => is_speak e || is_run e) evs = true
    /\ forall c, r = Ok c ->
         c = main.Continue
         /\ fs w' = fs w
         /\ exists a runs1 runs2,
              ollama_chat env
                (logged [EvReply u; EvChat (coach.model coach) (request coach u)] w)
                (coach.model coach) (request coach u) = Answer a
              /\ evs = EvSpeak (Some (strip (message_content a))) :: runs1
                       ++ EvSpeak (Some (strip (message_content a))) :: runs2
              /\ forallb is_run runs1 = true
              /\ forallb is_run runs2 = true.
Proof.
  unfold reply_and_speak. run_monad. rewrite reply_run. cbv zeta.
  destruct (ollama_chat env _ _ _) as [a|what] eqn:Hchat.
  2:{ intros [= <- <-]. exists []. cbn. split_and!; try done. }
  msimpl. set (reply := strip (message_content a)).
  assert (forall l, forallb is_run l = true ->
            forallb (fun e => is_speak e || is_run e) l = true) as Hweak.
  { intros l Hl. apply forallb_forall. intros e He.
    rewrite forallb_forall in Hl. rewrite (Hl e He). apply orb_true_r. }
  destruct (tts.speak env tts (Some reply) _) as [[[]|e] w2] eqn:E1;
    apply speak_any in E1 as (runs1 & T1 & R1 & F1); msimpl in T1.
  2:{ intros [= <- <-]. exists (EvSpeak (Some reply) :: runs1).
      rewrite T1. cbn [logged trace]. rewrite <- app_assoc.
      split_and!; try done. cbn. by apply Hweak. }
  destruct (tts.speak env tts (Some reply) w2) as [[[]|e] w3] eqn:E2;
    apply speak_any in E2 as (runs2 & T2 & R2 & F2); intros [= <- <-];
    exists (EvSpeak (Some reply) :: runs1 ++ EvSpeak (Some reply) :: runs2);
    (split; [rewrite T2, T1; cbn [logged trace]; by rewrite <- !app_assoc|]);
    (split; [cbn; rewrite forallb_app; cbn; by rewrite !Hweak|]);
    intros c [= <-].
  split; [done|]. split; [rewrite F2, F1 by done; done|].
  exists a, runs1, runs2. done.
Qed.

(** C1 fails on the code. The user types a line, the reply engine answers,
    synthesis and playback work: the turn makes one request to the reply
    engine and then calls [speak] twice with the reply, not once, and the
    synthesis executable runs twice. *)
Theorem normal_turn_speaks_twice :
  exists w',
    main.loop_body Demo.env Demo.the_coach Demo.the_stt Demo.the_tts
      (lit "I feel stuck at work") Demo.w0 = (Ok main.Continue, w')
    /\ count is_reply (trace w') = 1%nat
    /\ filter (fun e => is_speak e = true) (trace w')
       = [ EvSpeak (Some (lit "Try writing down one goal for tomorrow."));
           EvSpeak (Some (lit "Try writing down one goal for tomorrow.")) ]
    /\ count is_speak (trace w') = 2%nat
    /\ count is_run (trace w') = 4%nat.
Proof.
  eexists. split; [vm_compute; reflexivity|].
  split_and!; vm_compute; reflexivity.
Qed.

(** The same on every input: a turn on a typed text that completes has
    called [speak] exactly twice. *)
Lemma completed_text_turn_speaks_twice (env : Env)
    (coach : coach.CoachEngine) (stt : stt.SpeechToText)
    (tts : tts.TextToSpeech) (line : str) (w w' : World) (c : main.Control) :
  main.is_exit env (strip line) = false ->
  strip line <> [] ->
  main.loop_body env coach stt tts line w = (Ok c, w') ->
  exists evs, trace w' = trace w ++ evs /\ count is_speak evs = 2%nat.
Proof.
  intros Hx Hne. rewrite loop_body_text by done. intros H.
  apply reply_and_speak_shape in H as (evs & Htr & _ & Hok).
  destruct (Hok c eq_refl) as (_ & _ & a & runs1 & runs2 & _ & -> & R1 & R2).
  eexists. split; [exact Htr|].
  assert (forall l, forallb is_run l = true -> count is_speak l = 0%nat) as Hz.
  { induction l as [|e l IH]; [done|]. cbn [forallb].
    intros [He Hl]%andb_true_iff. unfold count in *. rewrite filter_cons.
    destruct e; try done; cbn [is_speak]; rewrite decide_False by done; auto. }
  unfold count in *. rewrite !filter_cons. cbn [is_speak is_reply is_run].
  rewrite !decide_False, decide_True by done. rewrite filter_app, filter_cons.
  cbn [is_speak]. rewrite decide_True by done.
  cbn [length]. rewrite length_app. cbn [length]. rewrite !Hz by done. lia.
Qed.

(** C2 as stated fails: with the chat server down, the first turn raises,
    the loop is left and the process ends with that error; the second line
    is never read, nothing but the prompt was written, and there was no
    second prompt. *)
Lemma backend_error_ends_the_process :
  exists w',
    main.conversation_loop Demo.env_offline Demo.the_coach Demo.the_stt
      Demo.the_tts [lit "hello"; lit "quit"] Demo.w0
    = (main.Crashed (External (lit "ConnectionError")), w', [lit "quit"])
    /\ out w' = [main.prompt].
Proof.
  eexists. split; [vm_compute; reflexivity|]. vm_compute. reflexivity.
Qed.

(** An error that leaves the loop body leaves the loop: the [while] has
    no handler. *)
Lemma turn_error_ends_the_loop (env : Env) (coach : coach.CoachEngine)
    (stt : stt.SpeechToText) (tts : tts.TextToSpeech)
    (line : str) (rest : list str) (w w2 : World) (e : exn) :
  main.loop_body env coach stt tts line (printed [main.prompt] w)
  = (Raise e, w2) ->
  main.conversation_loop env coach stt tts (line :: rest) w
  = (main.Crashed e, w2, rest).
Proof.
  intros H. cbn [main.conversation_loop]. run_monad. cbn [snd].
  run_monad_in H. by rewrite H.
Qed.

(** Each component's error does leave the body. *)
Lemma reply_error_leaves_body (env : Env) (coach : coach.CoachEngine)
    (stt : stt.SpeechToText) (tts : tts.TextToSpeech) (line : str)
    (w w1 : World) (e : exn) :
  main.is_exit env (strip line) = false ->
  strip line <> [] ->
  coach.reply env coach (strip line) w = (Raise e, w1) ->
  main.loop_body env coach stt tts line w = (Raise e, w1).
Proof.
  intros Hx Hne H. rewrite loop_body_text by done.
  unfold reply_and_speak. run_monad. by rewrite H.
Qed.

Lemma speak_error_leaves_body (env : Env) (coach : coach.CoachEngine)
    (stt : stt.SpeechToText) (tts : tts.TextToSpeech) (line reply : str)
    (w w1 w2 : World) (e : exn) :
  main.is_exit env (strip line) = false ->
  strip line <> [] ->
  coach.reply env coach (strip line) w = (Ok reply, w1) ->
  tts.speak env tts (Some reply)
    (printed [(lit "Coach: " ++ reply ++ nl) ++ nl] w1) = (Raise e, w2) ->
  main.loop_body env coach stt tts line w = (Raise e, w2).
Proof.
  intros Hx Hne H1 H2. rewrite loop_body_text by done.
  unfold reply_and_speak. run_monad. rewrite H1. msimpl.
  run_monad_in H2. by rewrite H2.
Qed.

Lemma transcribe_error_leaves_body (env : Env) (coach : coach.CoachEngine)
    (stt : stt.SpeechToText) (tts : tts.TextToSpeech) (line : str)
    (wav_path : path) (w w1 w2 : World) (e : exn) :
  main.is_exit env (strip line) = false ->
  strip line = [] ->
  stt.record_wav env stt 6 w = (Ok wav_path, w1) ->
  stt.transcribe env stt wav_path (Some (lit "it")) 1 true w1 = (Raise e, w2) ->
  main.loop_body env coach stt tts line w = (Raise e, w2).
Proof.
  intros Hx Hu H1 H2. rewrite loop_body_voice by done. by rewrite H1, H2.
Qed.

Lemma loop_body_on_text (env : Env) (coach : coach.CoachEngine)
    (stt : stt.SpeechToText) (tts : tts.TextToSpeech) (line u : str)
    (w wu : World) :
  main.is_exit env (strip line) = false ->
  turn_text env stt line w u wu ->
  main.loop_body env coach stt tts line w = reply_and_speak env coach tts u wu.
Proof.
  intros Hx [(Hne & -> & ->)|(Hu & wav & w1 & w2 & Hrec & Htr & Hne & ->)].
  - by apply loop_body_text.
  - rewrite loop_body_voice, Hrec, Htr by done. cbv zeta.
    by destruct u.
Qed.

(** C2, amended. An error raised by the transcriber, by the reply engine
    or by the speaker during a turn, in [transcribe], in [reply] or in
    either call of [speak], on a typed or on a spoken turn, is not caught:
    the loop ends and the process with it, with that error and in the
    world the failing call left, so nothing is reported by the loop, and
    no line after the current one is read. *)
Theorem component_error_ends_the_loop (env : Env)
    (coach : coach.CoachEngine) (stt : stt.SpeechToText)
    (tts : tts.TextToSpeech) (line : str) (rest : list str)
    (w w_err : World) (e : exn) :
  main.is_exit env (strip line) = false ->
  component_raises env coach stt tts line (printed [main.prompt] w) e w_err ->
  main.conversation_loop env coach stt tts (line :: rest) w
  = (main.Crashed e, w_err, rest).
Proof.
  intros Hx Hc. apply turn_error_ends_the_loop.
  destruct Hc as [wav w1 e w2 Hu Hrec Htr
                 |u wu e w1 Ht Hrep
                 |u wu reply w1 e w2 Ht Hrep Hs1
                 |u wu reply w1 w2 e w3 Ht Hrep Hs1 Hs2].
  - by apply transcribe_error_leaves_body with wav w1.
  - rewrite (loop_body_on_text _ _ _ _ _ u _ wu) by done.
    unfold reply_and_speak. cbv [mbind M_bind mret M_ret]. by rewrite Hrep.
  - rewrite (loop_body_on_text _ _ _ _ _ u _ wu) by done.
    unfold reply_and_speak. cbv [mbind M_bind mret M_ret].
    by rewrite Hrep, print_run, Hs1.
  - rewrite (loop_body_on_text _ _ _ _ _ u _ wu) by done.
    unfold reply_and_speak. cbv [mbind M_bind mret M_ret].
    by rewrite Hrep, print_run, Hs1, Hs2.
Qed.

Lemma component_error_ends_the_loop_witness :
  main.conversation_loop Demo.env_no_exec Demo.the_coach Demo.the_stt
    Demo.the_tts [[]; lit "quit"] Demo.w0
  = (main.Crashed (External (lit "OSError: [Errno 8] Exec format error")),
     snd (main.loop_body Demo.env_no_exec Demo.the_coach Demo.the_stt
            Demo.the_tts [] (printed [main.prompt] Demo.w0)),
     [lit "quit"]).
Proof.
  apply (component_error_ends_the_loop Demo.env_no_exec Demo.the_coach
           Demo.the_stt Demo.the_tts [] [lit "quit"] Demo.w0).
  - reflexivity.
  - eapply (speaker_raises_first Demo.env_no_exec Demo.the_coach Demo.the_stt
              Demo.the_tts [] (printed [main.prompt] Demo.w0)
              (lit "Mi sento bloccato.")).
    + right. split; [reflexivity|]. eexists _, _, _.
      split; [vm_compute; reflexivity|].
      split; [vm_compute; reflexivity|].
      split; [discriminate|reflexivity].
    + vm_compute. reflexivity.
    + vm_compute. reflexivity.
Defined.

(** Conversely, an error that leaves the loop body was raised by the
    recording or by one of those calls: the list is complete. *)
Lemma turn_error_comes_from_a_call (env : Env) (coach : coach.CoachEngine)
    (stt : stt.SpeechToText) (tts : tts.TextToSpeech) (line : str)
    (w w' : World) (e : exn) :
  main.loop_body env coach stt tts line w = (Raise e, w') ->
  main.is_exit env (strip line) = false
  /\ ((strip line = [] /\ stt.record_wav env stt 6 w = (Raise e, w'))
      \/ component_raises env coach stt tts line w e w').
Proof.
  destruct (main.is_exit env (strip line)) eqn:Hx;
    [by rewrite loop_body_exit|].
  intros H. split; [done|].
  assert (forall u wu, turn_text env stt line w u wu ->
            reply_and_speak env coach tts u wu = (Raise e, w') ->
            component_raises env coach stt tts line w e w') as Hcall.
  { intros u wu Ht. unfold reply_and_speak. cbv [mbind M_bind mret M_ret].
    destruct (coach.reply env coach u wu) as [[reply|e1] w1] eqn:Hrep.
    2:{ intros [= <- <-]. by eapply reply_engine_raises. }
    rewrite print_run.
    destruct (tts.speak env tts (Some reply) _) as [[[]|e2] w2] eqn:Hs1.
    2:{ intros [= <- <-]. by eapply speaker_raises_first. }
    destruct (tts.speak env tts (Some reply) w2) as [[[]|e3] w3] eqn:Hs2;
      [done|].
    intros [= <- <-]. by eapply speaker_raises_second. }
  destruct (decide (strip line = [])) as [Hu|Hu].
  - rewrite loop_body_voice in H by done.
    destruct (stt.record_wav env stt 6 w) as [[wav|e1] w1] eqn:Hrec.
    2:{ injection H as <- <-. by left. }
    right.
    destruct (stt.transcribe env stt wav _ _ _ w1) as [[u|e2] w2] eqn:Htr.
    2:{ injection H as <- <-. by eapply transcriber_raises. }
    cbv zeta in H. destruct u as [|c u]; [done|]. cbn [falsy] in H.
    eapply Hcall; [|exact H]. right. split; [done|].
    by eexists _, _, _.
  - right. rewrite loop_body_text in H by done.
    eapply Hcall; [|exact H]. by left.
Qed.

(** C4 as stated fails even when every step succeeds: the user presses
    ENTER, the recording is written to the audio directory, transcribed,
    answered and spoken, and at the end of the turn the recorded WAV is
    still on disk. *)
Lemma recording_survives_the_turn :
  exists w',
    main.loop_body Demo.env Demo.the_coach Demo.the_stt Demo.the_tts [] Demo.w0
    = (Ok main.Continue, w')
    /\ fs Demo.w0 !! lit "data/audio_raw/rec_1700000000_3f2a9c.wav" = None
    /\ fs w' !! lit "data/audio_raw/rec_1700000000_3f2a9c.wav"
       = Some (WaveFile 1 2 16000 [0; 0; 0]%Z).
Proof.
  eexists. split; [vm_compute; reflexivity|].
  split; vm_compute; reflexivity.
Qed.

(** C4, amended. When a turn completes without an error, the files on
    disk are those of its start, plus the recording when one was made: the
    text files and output WAVs the speaker created are gone, and the
    recorded input WAV is kept. *)
Theorem completed_turn_keeps_only_the_recording (env : Env)
    (coach : coach.CoachEngine) (stt : stt.SpeechToText)
    (tts : tts.TextToSpeech) (line : str) (w w' : World) (c : main.Control) :
  main.loop_body env coach stt tts line w = (Ok c, w') ->
  if main.is_exit env (strip line) || negb (falsy (strip line))
  then fs w' = fs w
  else exists wav_path frames,
         fst (stt.record_wav env stt 6 w) = Ok wav_path
         /\ fs w' = <[wav_path := WaveFile 1 2 (stt.sample_rate stt) frames]> (fs w)
         /\ fs w' !! wav_path = Some (WaveFile 1 2 (stt.sample_rate stt) frames).
Proof.
  destruct (main.is_exit env (strip line)) eqn:Hx; cbn [orb].
  { rewrite loop_body_exit by done. by intros [= <- <-]. }
  destruct (strip line) as [|ch u] eqn:Hu; cbn [falsy negb].
  - rewrite loop_body_voice by (rewrite ?Hu; done).
    rewrite record_wav_run. cbv zeta.
    destruct (sd_rec env _ _ _ _) as [audio|what]; [|done]. cbn [fst].
    set (wav := path_join env _ _).
    rewrite transcribe_run. cbv zeta.
    destruct (whisper_transcribe env _ _ _ _ _) as [segs|what]; [|done].
    cbn [logged printed fs out trace].
    intros H. exists wav, audio. split; [done|].
    assert (fs w' = <[wav:=WaveFile 1 2 (stt.sample_rate stt) audio]> (fs w))
      as ->; [|by rewrite lookup_insert_eq].
    destruct (falsy (transcript segs)).
    + by injection H as <- <-.
    + apply reply_and_speak_shape in H as (evs & _ & _ & Hok).
      by destruct (Hok c eq_refl) as (_ & -> & _).
  - rewrite loop_body_text by (rewrite ?Hu; done).
    intros H. apply reply_and_speak_shape in H as (evs & _ & _ & Hok).
    by destruct (Hok c eq_refl) as (_ & -> & _).
Qed.

Lemma completed_turn_keeps_only_the_recording_witness :
  fs (snd (main.loop_body Demo.env Demo.the_coach Demo.the_stt Demo.the_tts
             (lit "I feel stuck at work") Demo.w0))
  = fs Demo.w0.
Proof.
  apply (completed_turn_keeps_only_the_recording Demo.env Demo.the_coach
           Demo.the_stt Demo.the_tts (lit "I feel stuck at work") Demo.w0
           _ main.Continue).
  vm_compute. reflexivity.
Defined.

(** ** Exit keywords and blank lines *)

Lemma letter_not_space (c k : N) :
  ascii_lower c = k -> 97 <= k <= 122 ->
  is_ascii c = true /\ is_space c = false.
Proof.
  unfold ascii_lower, is_ascii, is_space. intros Hk Hr.
  assert (65 <= c <= 90 \/ 97 <= c <= 122) as Hc.
  { destruct (N.leb_spec 65 c), (N.leb_spec c 90); cbn in Hk; lia. }
  split; [apply N.ltb_lt; lia|].
  repeat match goal with
         | |- context [N.leb ?a ?b] => destruct (N.leb_spec a b); try lia
         | |- context [N.eqb ?a ?b] => destruct (N.eqb_spec a b); try lia
         end; reflexivity.
Qed.

Lemma caseless_clean (s kw : str) :
  map ascii_lower s = kw ->
  Forall (fun k => 97 <= k <= 122) kw ->
  forallb is_ascii s = true /\ forallb (fun c => negb (is_space c)) s = true.
Proof.
  revert kw. induction s as [|c s IH]; intros kw; [done|].
  cbn [map]. intros <- [Hc Hs]%Forall_cons.
  destruct (letter_not_space c _ eq_refl Hc) as [Ha Hn].
  destruct (IH _ eq_refl Hs) as [IHa IHn].
  cbn [forallb]. by rewrite Ha, Hn, IHa, IHn.
Qed.

Lemma nospace_trimmed (s : str) :
  forallb (fun c => negb (is_space c)) s = true -> trimmed s = true.
Proof.
  intros H. unfold trimmed.
  destruct (head s) as [a|] eqn:Ha; [|done].
  destruct (last s) as [b|] eqn:Hb; [|done].
  rewrite forallb_forall in H.
  rewrite (H a), (H b); [done| |].
  - apply list_elem_of_In. apply last_Some in Hb as [l' ->].
    apply elem_of_app. right. apply list_elem_of_here.
  - apply list_elem_of_In. destruct s; [done|]. injection Ha as ->.
    apply list_elem_of_here.
Qed.

Lemma exit_keyword_is_exit (env : Env) (s : str) :
  lower_on_ascii env -> exit_keyword s ->
  strip s = s /\ main.is_exit env s = true.
Proof.
  intros Hlow Hk.
  assert (exists kw, map ascii_lower s = kw
                     /\ Forall (fun k => 97 <= k <= 122) kw
                     /\ kw ∈ [lit "quit"; lit "exit"]) as (kw & Hm & Hl & Hin).
  { destruct Hk as [Hk|Hk]; unfold caseless in Hk;
      vm_compute (map ascii_lower (lit _)) in Hk; eexists;
      (split; [exact Hk|]); split.
    - repeat (apply Forall_cons; split; [lia|]). apply Forall_nil_2.
    - apply list_elem_of_here.
    - repeat (apply Forall_cons; split; [lia|]). apply Forall_nil_2.
    - apply list_elem_of_further, list_elem_of_here. }
  destruct (caseless_clean s kw Hm Hl) as [Ha Hn].
  split; [by apply strip_id, nospace_trimmed|].
  unfold main.is_exit. rewrite (Hlow s Ha), Hm. by apply bool_decide_eq_true_2.
Qed.

Lemma empty_is_not_exit (env : Env) :
  lower_on_ascii env -> main.is_exit env [] = false.
Proof.
  intros Hlow. unfold main.is_exit. rewrite (Hlow [] eq_refl). reflexivity.
Qed.

Lemma printed_printed (s1 s2 : list str) (w : World) :
  printed s2 (printed s1 w) = printed (s1 ++ s2) w.
Proof. unfold printed; cbn. by rewrite app_assoc. Qed.

(** C7. A console line that is "quit" or "exit" up to the case of its
    letters ends the loop at once: the only effects are the prompt and the
    farewell on the console; no recording, transcription, reply or speech
    is started, no file changes, and the lines after it are not read. *)
Theorem exit_keyword_ends_the_loop (env : Env) (coach : coach.CoachEngine)
    (stt : stt.SpeechToText) (tts : tts.TextToSpeech)
    (line : str) (rest : list str) (w : World) :
  lower_on_ascii env ->
  exit_keyword line ->
  exists w',
    main.conversation_loop env coach stt tts (line :: rest) w
    = (main.Ended, w', rest)
    /\ trace w' = trace w
    /\ fs w' = fs w
    /\ out w' = out w ++ [main.prompt; lit "Session ended." ++ nl].
Proof.
  intros Hlow Hk. destruct (exit_keyword_is_exit env line Hlow Hk) as [Hs Hx].
  cbn [main.conversation_loop]. rewrite loop_body_exit by (rewrite Hs; done).
  eexists. split; [reflexivity|]. cbn. by rewrite <- app_assoc.
Qed.

Lemma exit_keyword_ends_the_loop_witness :
  exists w',
    main.conversation_loop Demo.env Demo.the_coach Demo.the_stt Demo.the_tts
      [lit "QuIt"; lit "hello"] Demo.w0
    = (main.Ended, w', [lit "hello"])
    /\ trace w' = trace Demo.w0
    /\ fs w' = fs Demo.w0
    /\ out w' = out Demo.w0 ++ [main.prompt; lit "Session ended." ++ nl].
Proof.
  apply (exit_keyword_ends_the_loop Demo.env Demo.the_coach Demo.the_stt
           Demo.the_tts (lit "QuIt") [lit "hello"] Demo.w0).
  - intros s _. reflexivity.
  - left. reflexivity.
Defined.

Lemma trimmed_not_blank (s : str) :
  trimmed s = true -> s <> [] -> blank s = false.
Proof.
  destruct s as [|c r]; [done|]. unfold trimmed. cbn [head].
  destruct (last (c :: r)) as [b|] eqn:Hb.
  - intros [Hc _]%andb_true_iff _. apply negb_true_iff in Hc.
    cbn. by rewrite Hc.
  - by apply last_None in Hb.
Qed.

(** The trace of a turn that starts with a recording. *)
Lemma voice_turn_trace (env : Env) (coach : coach.CoachEngine)
    (stt : stt.SpeechToText) (tts : tts.TextToSpeech) (line : str)
    (w : World) :
  main.is_exit env (strip line) = false ->
  strip line = [] ->
  exists evs,
    trace (snd (main.loop_body env coach stt tts line w))
    = trace w ++ EvRecord 6 :: evs
    /\ (forall wav, fst (stt.record_wav env stt 6 w) = Ok wav ->
          exists evs', evs = EvTranscribe wav (Some (lit "it")) :: evs')
    /\ (forall u, EvReply u ∈ evs -> blank u = false).
Proof.
  intros Hx Hu. rewrite loop_body_voice by done.
  rewrite record_wav_run. cbv zeta.
  destruct (sd_rec env _ _ _ _) as [audio|what].
  2:{ exists []. cbn. split_and!; try done. intros u Hin. by inversion Hin. }
  cbn [fst]. set (wav := path_join env _ _).
  rewrite transcribe_run. cbv zeta.
  destruct (whisper_transcribe env _ _ _ _ _) as [segs|what].
  2:{ exists [EvTranscribe wav (Some (lit "it"))]. cbn.
      rewrite <- app_assoc. split_and!; try done.
      - intros ? [= <-]. by eexists.
      - intros u Hin. apply list_elem_of_singleton in Hin. done. }
  destruct (falsy (transcript segs)) eqn:Ht.
  { exists [EvTranscribe wav (Some (lit "it"))]. cbn.
    rewrite <- app_assoc. split_and!; try done.
    - intros ? [= <-]. by eexists.
    - intros u Hin. apply list_elem_of_singleton in Hin. done. }
  destruct (reply_and_speak env coach tts (transcript segs) _) as [r w'] eqn:E.
  apply reply_and_speak_shape in E as (evs & Htr & Hsr & _).
  cbn [snd]. rewrite Htr. cbn [logged printed trace].
  eexists (EvTranscribe wav _ :: EvReply _ :: EvChat _ _ :: evs).
  split_and!.
  - rewrite <- !app_assoc. reflexivity.
  - intros ? [= <-]. by eexists.
  - intros u Hin.
    apply elem_of_cons in Hin as [|Hin]; [done|].
    apply elem_of_cons in Hin as [[= ->]|Hin].
    + apply trimmed_not_blank; [apply strip_trimmed|].
      by destruct (transcript segs).
    + apply elem_of_cons in Hin as [|Hin]; [done|].
      rewrite forallb_forall in Hsr. apply list_elem_of_In, Hsr in Hin. done.
Qed.

(** C10. A console line of whitespace only is, after [strip], the empty
    line: the turn is the turn of an empty line, it starts with a
    recording followed by its transcription, and whatever reaches the
    reply engine in it is not whitespace; and an exit keyword with
    whitespace around it ends the loop like the bare keyword. *)
Theorem blank_line_is_an_empty_line (env : Env) (coach : coach.CoachEngine)
    (stt : stt.SpeechToText) (tts : tts.TextToSpeech) (line : str)
    (w : World) :
  lower_on_ascii env ->
  blank line = true ->
  main.loop_body env coach stt tts line w
  = main.loop_body env coach stt tts [] w
  /\ (exists evs,
        trace (snd (main.loop_body env coach stt tts line w))
        = trace w ++ EvRecord 6 :: evs
        /\ (forall wav, fst (stt.record_wav env stt 6 w) = Ok wav ->
              exists evs', evs = EvTranscribe wav (Some (lit "it")) :: evs')
        /\ (forall u, EvReply u ∈ evs -> blank u = false))
  /\ (forall a k b rest,
        blank a = true -> blank b = true -> exit_keyword k ->
        main.conversation_loop env coach stt tts ((a ++ k ++ b) :: rest) w
        = (main.Ended,
           printed [main.prompt; lit "Session ended." ++ nl] w, rest)).
Proof.
  intros Hlow Hb. pose proof (strip_blank line Hb) as Hs.
  pose proof (empty_is_not_exit env Hlow) as Hx.
  split_and!.
  - unfold main.loop_body. by rewrite Hs.
  - apply voice_turn_trace; by rewrite Hs.
  - intros a k b rest Ha Hb' Hk.
    destruct (exit_keyword_is_exit env k Hlow Hk) as [Hsk Hxk].
    cbn [main.conversation_loop].
    rewrite loop_body_exit by (rewrite strip_padding, Hsk; done).
    change (snd (write_out main.prompt w)) with (printed [main.prompt] w).
    by rewrite printed_printed.
Qed.

Lemma blank_line_is_an_empty_line_witness :
  main.loop_body Demo.env Demo.the_coach Demo.the_stt Demo.the_tts
    (lit "   ") Demo.w0
  = main.loop_body Demo.env Demo.the_coach Demo.the_stt Demo.the_tts
      [] Demo.w0
  /\ main.conversation_loop Demo.env Demo.the_coach Demo.the_stt Demo.the_tts
       [lit "  Exit " ; lit "hello"] Demo.w0
     = (main.Ended,
        printed [main.prompt; lit "Session ended." ++ nl] Demo.w0,
        [lit "hello"]).
Proof.
  destruct (blank_line_is_an_empty_line Demo.env Demo.the_coach Demo.the_stt
              Demo.the_tts (lit "   ") Demo.w0) as (Hsame & _ & Hexit).
  - intros s _. reflexivity.
  - reflexivity.
  - split; [exact Hsame|].
    apply (Hexit (lit "  ") (lit "Exit") (lit " ") [lit "hello"]).
    + reflexivity.
    + reflexivity.
    + right. reflexivity.
Defined.

(** ** Speaker construction *)

Lemma tts_init_run (env : Env) (dir : path) (model_name : str) (w : World) :
  tts.init env dir model_name w =
  match fs w !! exe_path env dir with
  | None =>
      (Raise (FileNotFoundError
                (lit "piper.exe non trovato in " ++ abspath env dir)), w)
  | Some _ =>
      match fs w !! model_path env dir model_name with
      | None =>
          (Raise (FileNotFoundError
                    (lit "Voce non trovata: " ++ model_path env dir model_name)),
           w)
      | Some _ =>
          match fs w !! config_path env dir model_name with
          | None =>
              (Raise (FileNotFoundError
                        (lit "Voce non trovata: "
                         ++ config_path env dir model_name)), w)
          | Some _ =>
              (Ok {| tts.piper_dir := abspath env dir;
                     tts.exe := exe_path env dir;
                     tts.model := model_path env dir model_name;
                     tts.config := config_path env dir model_name |}, w)
          end
      end
  end.
Proof.
  unfold tts.init, exe_path, model_path, config_path. cbn [tts.check_voices].
  run_monad.
  assert (forall (x : file), bool_decide (is_Some (Some x)) = true) as Hs by done.
  assert (bool_decide (is_Some (@None file)) = false) as Hn by done.
  destruct (fs w !! path_join env (abspath env dir) (lit "piper.exe"));
    rewrite ?Hs, ?Hn; cbn [negb]; [|done]. msimpl.
  destruct (fs w !! path_join env (abspath env dir) (model_name ++ lit ".onnx"));
    rewrite ?Hs, ?Hn; cbn [negb]; [|done]. msimpl.
  destruct (fs w !! path_join env (abspath env dir)
                      (model_name ++ lit ".onnx.json"));
    rewrite ?Hs, ?Hn; cbn [negb]; done.
Qed.

(** With the three files in place the speaker is built. *)
Lemma tts_init_ok (env : Env) (dir : path) (model_name : str) (w : World) :
  assets_present env dir model_name (fs w) ->
  exists self, tts.init env dir model_name w = (Ok self, w).
Proof.
  intros ([e He] & [m Hm] & [c Hc]). rewrite tts_init_run, He, Hm, Hc.
  by eexists.
Qed.

Lemma tts_init_missing (env : Env) (dir : path) (model_name : str) (w : World) :
  ~ assets_present env dir model_name (fs w) ->
  exists msg,
    tts.init env dir model_name w = (Raise (FileNotFoundError msg), w).
Proof.
  intros Hmiss. rewrite tts_init_run.
  destruct (fs w !! exe_path env dir) eqn:He; [|by eexists].
  destruct (fs w !! model_path env dir model_name) eqn:Hm; [|by eexists].
  destruct (fs w !! config_path env dir model_name) eqn:Hc; [|by eexists].
  destruct Hmiss. unfold assets_present. rewrite He, Hm, Hc. eauto.
Qed.

(** C8. When the synthesis executable or one of the two voice files is
    absent, building the speaker raises the missing-asset error and leaves
    the world as it was; in [__main__], where the speaker is built from
    models/piper and en_US-amy-medium before the loop, the process then
    ends before the banner, without a prompt and without reading a line:
    no turn begins. *)
Theorem missing_asset_fails_before_any_turn (env : Env) (dir : path)
    (model_name : str) (w : World) :
  ~ assets_present env dir model_name (fs w) ->
  (exists msg,
     tts.init env dir model_name w = (Raise (FileNotFoundError msg), w))
  /\ (dir = lit "models/piper" -> model_name = lit "en_US-amy-medium" ->
      forall stdin, exists e, main.main env stdin w = (main.Crashed e, w, stdin)).
Proof.
  intros Hmiss. split; [by apply tts_init_missing|].
  intros -> -> stdin. apply tts_init_missing in Hmiss as [msg Hinit].
  unfold main.main, main.startup, main.load_config, coach.init,
    coach.getitem2, stt.init.
  run_monad.
  destruct (yaml_load env w _) as [cfg|what]; [|by eexists].
  msimpl.
  destruct (alter _ _ _ !! lit "coach") as [sec|]; [|by eexists].
  destruct (sec !! lit "model_name"); [|by eexists]. msimpl.
  destruct (sec !! lit "system_prompt"); [|by eexists]. msimpl.
  destruct (whisper_init env w _ _ _); [by eexists|]. msimpl.
  rewrite Hinit. by eexists.
Qed.

Lemma missing_asset_fails_before_any_turn_witness :
  exists e,
    main.main Demo.env [lit "hello"; lit "quit"]
      {| fs := delete (lit "/app/models/piper/en_US-amy-medium.onnx.json")
                 Demo.disk;
         out := []; trace := [] |}
    = (main.Crashed e,
       {| fs := delete (lit "/app/models/piper/en_US-amy-medium.onnx.json")
                  Demo.disk;
          out := []; trace := [] |},
       [lit "hello"; lit "quit"]).
Proof.
  destruct (missing_asset_fails_before_any_turn Demo.env (lit "models/piper")
              (lit "en_US-amy-medium")
              {| fs := delete (lit "/app/models/piper/en_US-amy-medium.onnx.json")
                         Demo.disk;
                 out := []; trace := [] |}) as [_ Hmain].
  - intros (_ & _ & [c Hc]). vm_compute in Hc. discriminate.
  - apply (Hmain eq_refl eq_refl).
Defined.

(** * Further properties of the code *)

(** ** Playback *)

Lemma run_player_run (env : Env) (cmd : list str) (w : World) :
  tts.subprocess_run_player env cmd w =
  match run_player env (logged [EvRun cmd None] w) cmd with
  | ProcRaise what => (Raise (External what), logged [EvRun cmd None] w)
  | ProcExit rc _ _ => (Ok rc, logged [EvRun cmd None] w)
  end.
Proof.
  unfold tts.subprocess_run_player. run_monad.
  by destruct (run_player env _ _).
Qed.

(** One step of the player loop. *)
Lemma try_players_step (env : Env) (player : list str)
    (rest : list (list str)) (wav : path) (w : World) :
  tts.try_players env (player :: rest) wav w =
  if plays env player w then (Ok tt, logged [EvRun player None] w)
  else tts.try_players env rest wav (logged [EvRun player None] w).
Proof.
  cbn [tts.try_players]. unfold tts.subprocess_run_check, plays.
  cbv [mbind M_bind mret M_ret raise try_except]. rewrite run_player_run.
  destruct (run_player env _ _) as [what|rc err o]; [done|].
  by destruct (rc =? 0)%Z.
Qed.

(** X1. Outside Windows and macOS, [_play_wav] tries aplay, then paplay,
    then ffplay, each only when the one before did not run to exit code 0;
    the first that does ends the search; when none does, the path of the
    WAV is printed instead. In every case the call returns normally and no
    file changes. *)
Theorem play_wav_falls_back_in_order (env : Env) (wav : path) (w : World) :
  other_platform env ->
  exists w',
    tts._play_wav env wav w = (Ok tt, w')
    /\ fs w' = fs w
    /\ w' =
       if plays env [lit "aplay"; wav] w then
         logged (ran (take 1 (fallback_players wav))) w
       else if plays env [lit "paplay"; wav]
                 (logged (ran (take 1 (fallback_players wav))) w) then
         logged (ran (take 2 (fallback_players wav))) w
       else if plays env [lit "ffplay"; lit "-autoexit"; lit "-nodisp"; wav]
                 (logged (ran (take 2 (fallback_players wav))) w) then
         logged (ran (fallback_players wav)) w
       else
         printed [no_player_notice wav]
           (logged (ran (fallback_players wav)) w).
Proof.
  intros [Hw Hd]. unfold tts._play_wav.
  rewrite !bool_decide_eq_false_2 by done.
  rewrite try_players_step. cbn [take fallback_players ran map].
  destruct (plays env [lit "aplay"; wav] w); [by eexists|].
  rewrite try_players_step.
  destruct (plays env [lit "paplay"; wav] _);
    [eexists; split_and!; try done; by rewrite logged_logged|].
  rewrite try_players_step. rewrite !logged_logged. cbn [app].
  destruct (plays env [lit "ffplay"; _; _; wav] _);
    [eexists; split_and!; try done; by rewrite logged_logged|].
  cbn [tts.try_players]. rewrite print_run. by eexists.
Qed.

Lemma play_wav_falls_back_in_order_witness :
  exists w',
    tts._play_wav (Vary.with_player Vary.only_paplay Demo.env)
      (lit "/tmp/a.wav") Demo.w0 = (Ok tt, w')
    /\ trace w' = [ EvRun [lit "aplay"; lit "/tmp/a.wav"] None;
                    EvRun [lit "paplay"; lit "/tmp/a.wav"] None ]
    /\ out w' = [].
Proof.
  destruct (play_wav_falls_back_in_order
              (Vary.with_player Vary.only_paplay Demo.env)
              (lit "/tmp/a.wav") Demo.w0) as (w' & Hrun & _ & Hw').
  - split; discriminate.
  - exists w'. split; [exact Hrun|]. rewrite Hw'.
    split; vm_compute; reflexivity.
Defined.

(** X2. On Windows and on macOS [_play_wav] starts exactly one process
    and does not look at its return code: a player that ran and failed is
    not an error, only a player that could not be started is. *)
Theorem native_player_return_code_is_ignored (env : Env) (wav : path)
    (w : World) :
  platform_system env = lit "Windows" \/ platform_system env = lit "Darwin" ->
  tts._play_wav env wav w =
  (match run_player env (logged [EvRun (native_player env wav) None] w)
           (native_player env wav) with
   | ProcExit _ _ _ => Ok tt
   | ProcRaise what => Raise (External what)
   end,
   logged [EvRun (native_player env wav) None] w).
Proof.
  intros Hp. unfold tts._play_wav, native_player.
  destruct (bool_decide (platform_system env = lit "Windows")) eqn:Hw.
  - cbv [mbind M_bind mret M_ret]. rewrite run_player_run.
    by destruct (run_player env _ _).
  - apply bool_decide_eq_false in Hw. destruct Hp as [Hp|Hp]; [done|].
    rewrite bool_decide_eq_true_2 by done.
    cbv [mbind M_bind mret M_ret]. rewrite run_player_run.
    by destruct (run_player env _ _).
Qed.

Lemma native_player_return_code_is_ignored_witness :
  tts._play_wav
    (Vary.with_platform (lit "Darwin")
       (Vary.with_player Vary.player_exits_1 Demo.env))
    (lit "/tmp/a.wav") Demo.w0
  = (Ok tt, logged [EvRun [lit "afplay"; lit "/tmp/a.wav"] None] Demo.w0).
Proof.
  rewrite (native_player_return_code_is_ignored
             (Vary.with_platform (lit "Darwin")
                (Vary.with_player Vary.player_exits_1 Demo.env))
             (lit "/tmp/a.wav") Demo.w0).
  - reflexivity.
  - right. reflexivity.
Defined.

(** ** Synthesis *)

(** [speak] once both temporary names are known to be free. *)
Lemma speak_run_free (env : Env) (self : tts.TextToSpeech) (text : str)
    (w : World) :
  text <> [] ->
  fs w !! txt_path env text w = None ->
  fs (world_with_text env text w) !! wav_path env text w = None ->
  tts.speak env self (Some text) w =
  match run_synth env (world_at_synthesis env self text w)
          (tts.synth_cmd self (wav_path env text w)) (tts.piper_dir self)
          (TextFile (strip text)) with
  | ProcRaise what => (Raise (External what), world_at_synthesis env self text w)
  | ProcExit rc err o =>
      let w4 :=
        {| fs := delete (txt_path env text w)
                   (output_applied (wav_path env text w) o
                      (fs (world_at_synthesis env self text w)));
           out := out w;
           trace := trace (world_at_synthesis env self text w) |} in
      if negb (rc =? 0)%Z || is_removed o then (Raise (piper_failed rc err), w4)
      else
        match tts._play_wav env (wav_path env text w) w4 with
        | (Ok _, w5) =>
            (Ok tt, {| fs := delete (wav_path env text w) (fs w5);
                       out := out w5; trace := trace w5 |})
        | (Raise e, w5) => (Raise e, w5)
        end
  end.
Proof.
  intros Hne Htxt Hwav. rewrite speak_run by done. cbv zeta.
  fold (txt_path env text w). rewrite Htxt.
  fold (world_with_text env text w). fold (wav_path env text w).
  rewrite Hwav. reflexivity.
Qed.

(** X3. When the synthesis process ends with a non-zero code, or without
    its output file, [speak] raises the error that carries the code and
    the captured error stream; no player was started, the text file is
    gone, every other file is as before, and the output WAV the call had
    created is still on disk unless the process itself removed it. *)
Theorem failed_synthesis_leaves_the_output_file (env : Env)
    (self : tts.TextToSpeech) (text : str) (w : World)
    (rc : Z) (err : str) (o : OutputEffect) :
  text <> [] ->
  fs w !! txt_path env text w = None ->
  fs (world_with_text env text w) !! wav_path env text w = None ->
  run_synth env (world_at_synthesis env self text w)
    (tts.synth_cmd self (wav_path env text w)) (tts.piper_dir self)
    (TextFile (strip text)) = ProcExit rc err o ->
  rc <> 0%Z \/ o = Removed ->
  exists w',
    tts.speak env self (Some text) w = (Raise (piper_failed rc err), w')
    /\ trace w' = trace w ++
         [ EvSpeak (Some text);
           EvRun (tts.synth_cmd self (wav_path env text w))
                 (Some (TextFile (strip text))) ]
    /\ out w' = out w
    /\ fs w' !! txt_path env text w = None
    /\ fs w' !! wav_path env text w =
       match o with
       | Untouched => Some (BinaryFile [])
       | Written f => Some f
       | Removed => None
       end
    /\ forall p, p <> txt_path env text w -> p <> wav_path env text w ->
         fs w' !! p = fs w !! p.
Proof.
  intros Hne Htxt Hwav Hsyn Hfail. rewrite speak_run_free, Hsyn by done.
  cbv zeta.
  assert (negb (rc =? 0)%Z || is_removed o = true) as ->.
  { destruct Hfail as [Hrc| ->]; [|apply orb_true_r].
    apply Z.eqb_neq in Hrc. by rewrite Hrc. }
  assert (wav_path env text w <> txt_path env text w) as Hd.
  { intros E. unfold world_with_text in Hwav. cbn [fs] in Hwav.
    rewrite E, lookup_insert_eq in Hwav. done. }
  eexists. split; [reflexivity|]. cbn [fs out trace world_at_synthesis logged].
  split_and!; try done.
  - by rewrite <- app_assoc.
  - apply lookup_delete_eq.
  - rewrite lookup_delete_ne by done.
    destruct o; cbn [output_applied];
      by rewrite ?lookup_insert_eq, ?lookup_delete_eq.
  - intros p Hp1 Hp2. rewrite lookup_delete_ne by done.
    unfold world_with_text. cbn [fs].
    destruct o; cbn [output_applied];
      by rewrite ?lookup_delete_ne, ?lookup_insert_ne by done.
Qed.

Lemma failed_synthesis_leaves_the_output_file_witness :
  exists w',
    tts.speak Demo.env_synth_fails Demo.the_tts (Some (lit "Hello")) Demo.w0
    = (Raise (piper_failed 1 (lit "voice not loaded")), w')
    /\ fs w' !! lit "/tmp/tmp1.txt" = None
    /\ fs w' !! lit "/tmp/tmp1.wav" = Some (BinaryFile []).
Proof.
  destruct (failed_synthesis_leaves_the_output_file Demo.env_synth_fails
              Demo.the_tts (lit "Hello") Demo.w0 1 (lit "voice not loaded")
              Untouched) as (w' & Hrun & _ & _ & Htxt & Hwav & _).
  - discriminate.
  - vm_compute. reflexivity.
  - vm_compute. reflexivity.
  - reflexivity.
  - left. discriminate.
  - exists w'. split; [exact Hrun|]. split; [exact Htxt|exact Hwav].
Defined.

Lemma play_wav_players (env : Env) (wav : path) (w w' : World)
    (r : res unit) :
  tts._play_wav env wav w = (r, w') ->
  fs w' = fs w
  /\ exists cmds,
       trace w' = trace w ++ ran cmds
       /\ Forall (player_command env wav) cmds.
Proof.
  unfold tts._play_wav, player_command, native_player.
  destruct (bool_decide (platform_system env = lit "Windows")) eqn:Hw;
    [|destruct (bool_decide (platform_system env = lit "Darwin")) eqn:Hd].
  - cbv [mbind M_bind mret M_ret]. rewrite run_player_run.
    destruct (run_player env _ _); intros [= <- <-]; (split; [done|]);
      eexists [_]; (split; [reflexivity|]);
      apply Forall_cons; (split; [by left|apply Forall_nil_2]).
  - cbv [mbind M_bind mret M_ret]. rewrite run_player_run.
    destruct (run_player env _ _); intros [= <- <-]; (split; [done|]);
      eexists [_]; (split; [reflexivity|]);
      apply Forall_cons; (split; [by left|apply Forall_nil_2]).
  - assert (Forall (fun cmd =>
                      cmd = [lit "afplay"; wav] \/ cmd ∈ fallback_players wav)
                   (fallback_players wav)) as Hall.
    { apply Forall_forall. auto. }
    change [[lit "aplay"; wav]; [lit "paplay"; wav];
            [lit "ffplay"; lit "-autoexit"; lit "-nodisp"; wav]]
      with (fallback_players wav).
    unfold fallback_players in *.
    pose proof Hall as (H1 & (H2 & (H3 & _)%Forall_cons)%Forall_cons)%Forall_cons.
    rewrite try_players_step.
    destruct (plays env _ w).
    { intros [= <- <-]. split; [done|]. exists [[lit "aplay"; wav]].
      split; [done|]. by apply Forall_singleton. }
    rewrite try_players_step.
    destruct (plays env _ _).
    { intros [= <- <-]. split; [done|].
      exists [[lit "aplay"; wav]; [lit "paplay"; wav]].
      cbn [logged trace ran map]. rewrite <- app_assoc. split; [done|].
      repeat (apply Forall_cons; split; [done|]). apply Forall_nil_2. }
    rewrite try_players_step.
    destruct (plays env _ _); [|cbn [tts.try_players]; rewrite print_run];
      intros [= <- <-]; (split; [done|]);
      eexists [_; _; _]; cbn [logged printed trace ran map];
      rewrite <- !app_assoc; (split; [reflexivity|done]).
Qed.

(** X4. When [speak] returns on a non-empty text, the synthesis
    executable was started once, before any player, with the configured
    model and configuration on its command line and the stripped text as
    its input, and it exited with code 0; every process started after it
    is one of the players, started without input; and the files on disk
    are exactly those of before the call. *)
Theorem completed_speak_restores_the_disk (env : Env)
    (self : tts.TextToSpeech) (text : str) (w w' : World) :
  text <> [] ->
  tts.speak env self (Some text) w = (Ok tt, w') ->
  fs w' = fs w
  /\ (exists err o,
        run_synth env (world_at_synthesis env self text w)
          (tts.synth_cmd self (wav_path env text w)) (tts.piper_dir self)
          (TextFile (strip text)) = ProcExit 0 err o)
  /\ exists players,
       trace w' = trace w ++
         EvSpeak (Some text)
         :: EvRun [ tts.exe self; lit "-m"; tts.model self;
                    lit "-c"; tts.config self;
                    lit "--sentence_silence"; lit "0.4";
                    lit "-f"; wav_path env text w ]
                  (Some (TextFile (strip text)))
         :: map (fun cmd => EvRun cmd None) players
       /\ Forall (player_command env (wav_path env text w)) players.
Proof.
  intros Hne Hrun.
  destruct (speak_shape env self text w w' (Ok tt) Hne Hrun)
    as (evs & Htr & Hruns & Hfs & _).
  split; [by apply Hfs|].
  rewrite speak_run in Hrun by done. cbv zeta in Hrun.
  fold (txt_path env text w) in Hrun.
  destruct (fs w !! txt_path env text w) eqn:Htxt; [done|].
  fold (world_with_text env text w) in Hrun.
  fold (wav_path env text w) in Hrun.
  destruct (fs (world_with_text env text w) !! wav_path env text w) eqn:Hwav;
    [done|].
  fold (world_at_synthesis env self text w) in Hrun.
  destruct (run_synth env _ _ _ _) as [what|rc err o] eqn:Hsyn; [done|].
  destruct (negb (rc =? 0)%Z || is_removed o) eqn:Hfail; [done|].
  apply orb_false_iff in Hfail as [Hrc _].
  apply negb_false_iff, Z.eqb_eq in Hrc. subst rc.
  split; [by eexists _, _|].
  destruct (tts._play_wav env _ _) as [[[]|e] w5] eqn:E; [|done].
  apply play_wav_players in E as [_ (players & Ht & Hp)].
  injection Hrun as <-. exists players. split; [|done].
  cbn [trace] in Ht |- *. rewrite Ht. cbn [world_at_synthesis trace logged].
  by rewrite <- !app_assoc.
Qed.

Lemma completed_speak_restores_the_disk_witness :
  fs (snd (tts.speak Demo.env Demo.the_tts (Some (lit " Hello ")) Demo.w0))
  = fs Demo.w0
  /\ trace (snd (tts.speak Demo.env Demo.the_tts (Some (lit " Hello "))
                   Demo.w0))
     = [ EvSpeak (Some (lit " Hello "));
         EvRun (tts.synth_cmd Demo.the_tts (lit "/tmp/tmp1.wav"))
               (Some (TextFile (lit "Hello")));
         EvRun [lit "aplay"; lit "/tmp/tmp1.wav"] None ].
Proof.
  destruct (completed_speak_restores_the_disk Demo.env Demo.the_tts
              (lit " Hello ") Demo.w0
              (snd (tts.speak Demo.env Demo.the_tts (Some (lit " Hello "))
                      Demo.w0))) as (Hfs & _ & _).
  - discriminate.
  - vm_compute. reflexivity.
  - split; [exact Hfs|]. vm_compute. reflexivity.
Defined.

(** ** Construction of the components *)

(** X5. A speaker that was built points at three files that exist: its
    executable inside its piper directory, its model and its model
    configuration; building it changed nothing. *)
Theorem built_speaker_has_its_assets (env : Env) (dir : path)
    (model_name : str) (w w' : World) (self : tts.TextToSpeech) :
  tts.init env dir model_name w = (Ok self, w') ->
  w' = w
  /\ tts.piper_dir self = abspath env dir
  /\ tts.exe self = path_join env (tts.piper_dir self) (lit "piper.exe")
  /\ tts.model self
     = path_join env (tts.piper_dir self) (model_name ++ lit ".onnx")
  /\ tts.config self
     = path_join env (tts.piper_dir self) (model_name ++ lit ".onnx.json")
  /\ is_Some (fs w !! tts.exe self)
  /\ is_Some (fs w !! tts.model self)
  /\ is_Some (fs w !! tts.config self).
Proof.
  rewrite tts_init_run.
  destruct (fs w !! exe_path env dir) eqn:He; [|done].
  destruct (fs w !! model_path env dir model_name) eqn:Hm; [|done].
  destruct (fs w !! config_path env dir model_name) eqn:Hc; [|done].
  intros [= <- <-]. cbn [tts.piper_dir tts.exe tts.model tts.config].
  rewrite He, Hm, Hc. split_and!; eauto.
Qed.

Lemma built_speaker_has_its_assets_witness :
  Demo.w0 = Demo.w0
  /\ tts.piper_dir Demo.the_tts = lit "/app/models/piper"
  /\ tts.exe Demo.the_tts = lit "/app/models/piper/piper.exe"
  /\ tts.model Demo.the_tts = lit "/app/models/piper/en_US-amy-medium.onnx"
  /\ tts.config Demo.the_tts
     = lit "/app/models/piper/en_US-amy-medium.onnx.json"
  /\ is_Some (fs Demo.w0 !! tts.exe Demo.the_tts)
  /\ is_Some (fs Demo.w0 !! tts.model Demo.the_tts)
  /\ is_Some (fs Demo.w0 !! tts.config Demo.the_tts).
Proof.
  apply (built_speaker_has_its_assets Demo.env (lit "models/piper")
           (lit "en_US-amy-medium") Demo.w0 Demo.w0 Demo.the_tts).
  vm_compute. reflexivity.
Defined.

(** X6. When an asset is missing, the error of the constructor names the
    first one that is, in the order executable, model, model
    configuration: the piper directory for the executable, the full path
    for a voice file. *)
Theorem missing_asset_error_names_the_first_missing (env : Env) (dir : path)
    (model_name : str) (w : World) :
  ~ assets_present env dir model_name (fs w) ->
  tts.init env dir model_name w =
  (Raise (FileNotFoundError
            (if bool_decide (fs w !! exe_path env dir = None) then
               lit "piper.exe non trovato in " ++ abspath env dir
             else if bool_decide
                       (fs w !! model_path env dir model_name = None) then
               lit "Voce non trovata: " ++ model_path env dir model_name
             else
               lit "Voce non trovata: " ++ config_path env dir model_name)),
   w).
Proof.
  intros Hmiss. rewrite tts_init_run.
  destruct (fs w !! exe_path env dir) eqn:He; [|done].
  rewrite bool_decide_eq_false_2 by done.
  destruct (fs w !! model_path env dir model_name) eqn:Hm; [|done].
  rewrite bool_decide_eq_false_2 by done.
  destruct (fs w !! config_path env dir model_name) eqn:Hc; [|done].
  destruct Hmiss. unfold assets_present. rewrite He, Hm, Hc. eauto.
Qed.

Lemma missing_asset_error_names_the_first_missing_witness :
  tts.init Demo.env (lit "models/piper") (lit "en_US-amy-medium")
    {| fs := delete (lit "/app/models/piper/en_US-amy-medium.onnx") Demo.disk;
       out := []; trace := [] |}
  = (Raise (FileNotFoundError
              (lit "Voce non trovata: /app/models/piper/en_US-amy-medium.onnx")),
     {| fs := delete (lit "/app/models/piper/en_US-amy-medium.onnx") Demo.disk;
        out := []; trace := [] |}).
Proof.
  rewrite (missing_asset_error_names_the_first_missing Demo.env
             (lit "models/piper") (lit "en_US-amy-medium")).
  - vm_compute. reflexivity.
  - intros (_ & [c Hc] & _). vm_compute in Hc. discriminate.
Defined.

Lemma getitem2_run (c : Config) (section key : str) (w : World) :
  coach.getitem2 c section key w =
  (match c !! section with
   | None => Raise (KeyError section)
   | Some sec =>
       match sec !! key with
       | None => Raise (KeyError key)
       | Some v => Ok v
       end
   end, w).
Proof.
  unfold coach.getitem2. destruct (c !! section) as [sec|]; [|done].
  by destruct (sec !! key).
Qed.

Lemma coach_init_run (c : Config) (w : World) :
  coach.init c w =
  (match c !! lit "coach" with
   | None => Raise (KeyError (lit "coach"))
   | Some sec =>
       match sec !! lit "model_name" with
       | None => Raise (KeyError (lit "model_name"))
       | Some m =>
           match sec !! lit "system_prompt" with
           | None => Raise (KeyError (lit "system_prompt"))
           | Some p =>
               Ok {| coach.cfg := c; coach.model := m;
                     coach.system_prompt := p |}
           end
       end
   end, w).
Proof.
  cbv [coach.init coach.getitem2 mbind M_bind mret M_ret raise].
  destruct (c !! lit "coach") as [sec|]; [|done].
  destruct (sec !! lit "model_name"); [|done].
  by destruct (sec !! lit "system_prompt").
Qed.

(** X7. A coach engine that was built carries the configuration it was
    given, the model name and the system prompt of its coach section;
    building it changed nothing. *)
Theorem built_coach_carries_its_settings (c : Config) (w w' : World)
    (self : coach.CoachEngine) :
  coach.init c w = (Ok self, w') ->
  w' = w
  /\ coach.cfg self = c
  /\ coach_setting c (lit "model_name") = Some (coach.model self)
  /\ coach_setting c (lit "system_prompt") = Some (coach.system_prompt self).
Proof.
  rewrite coach_init_run. unfold coach_setting.
  destruct (c !! lit "coach") as [sec|]; [|done]. cbn.
  destruct (sec !! lit "model_name"); [|done].
  destruct (sec !! lit "system_prompt"); [|done].
  by intros [= <- <-].
Qed.

Lemma built_coach_carries_its_settings_witness :
  Demo.w0 = Demo.w0
  /\ coach.cfg {| coach.cfg := Vary.cfg_with_prompt;
                  coach.model := lit "llama3.1:8b";
                  coach.system_prompt := lit "Be brief." |}
     = Vary.cfg_with_prompt
  /\ coach_setting Vary.cfg_with_prompt (lit "model_name")
     = Some (lit "llama3.1:8b")
  /\ coach_setting Vary.cfg_with_prompt (lit "system_prompt")
     = Some (lit "Be brief.").
Proof.
  apply (built_coach_carries_its_settings Vary.cfg_with_prompt Demo.w0 Demo.w0
           {| coach.cfg := Vary.cfg_with_prompt;
              coach.model := lit "llama3.1:8b";
              coach.system_prompt := lit "Be brief." |}).
  vm_compute. reflexivity.
Defined.

(** X8. Without a model name or without a system prompt in its coach
    section, the coach engine is not built: the constructor raises
    [KeyError] for the first key it cannot find, looking for coach, then
    model_name, then system_prompt, and changes nothing. *)
Theorem coach_needs_both_settings (c : Config) (w : World) :
  coach_setting c (lit "model_name") = None
  \/ coach_setting c (lit "system_prompt") = None ->
  coach.init c w = (Raise (KeyError (first_missing_key c)), w)
  /\ (c !! lit "coach" = None -> first_missing_key c = lit "coach")
  /\ (is_Some (c !! lit "coach") ->
      coach_setting c (lit "model_name") = None ->
      first_missing_key c = lit "model_name")
  /\ (is_Some (coach_setting c (lit "model_name")) ->
      first_missing_key c = lit "system_prompt").
Proof.
  rewrite coach_init_run. unfold coach_setting, first_missing_key.
  destruct (c !! lit "coach") as [sec|]; cbn [mbind option_bind].
  - destruct (sec !! lit "model_name"), (sec !! lit "system_prompt");
      intros [H|H]; try done; split_and!; try done;
      try (by intros []); try (by intros ? []).
  - intros _. split_and!; try done; by intros [].
Qed.

Lemma coach_needs_both_settings_witness :
  coach.init Demo.cfg0 Demo.w0
  = (Raise (KeyError (lit "system_prompt")), Demo.w0).
Proof.
  destruct (coach_needs_both_settings Demo.cfg0 Demo.w0)
    as (Hrun & _ & _ & Hkey).
  - right. reflexivity.
  - rewrite Hrun, Hkey; [reflexivity|]. vm_compute. eauto.
Defined.

(** X9. When the chat backend fails, [reply] raises that failure after
    its single request: there is no second attempt, and neither the
    console nor any file is touched. *)
Theorem reply_failure_is_not_retried (env : Env) (self : coach.CoachEngine)
    (user_text what : str) (w : World) :
  ollama_chat env
    (logged [EvReply user_text;
             EvChat (coach.model self) (request self user_text)] w)
    (coach.model self) (request self user_text) = Failure what ->
  exists w',
    coach.reply env self user_text w = (Raise (External what), w')
    /\ count is_chat (trace w') = S (count is_chat (trace w))
    /\ out w' = out w
    /\ fs w' = fs w.
Proof.
  intros H. rewrite reply_run. cbv zeta. rewrite H.
  eexists. split; [reflexivity|]. split_and!; try done.
  unfold count. cbn [logged trace]. rewrite filter_app, length_app.
  rewrite !filter_cons, filter_nil. cbn [is_chat].
  rewrite decide_False, decide_True by done. cbn [length]. lia.
Qed.

Lemma reply_failure_is_not_retried_witness :
  exists w',
    coach.reply Demo.env_offline Demo.the_coach (lit "hello") Demo.w0
    = (Raise (External (lit "ConnectionError")), w')
    /\ count is_chat (trace w') = 1%nat.
Proof.
  destruct (reply_failure_is_not_retried Demo.env_offline Demo.the_coach
              (lit "hello") (lit "ConnectionError") Demo.w0)
    as (w' & Hrun & Hcount & _).
  - reflexivity.
  - exists w'. split; [exact Hrun|]. rewrite Hcount. reflexivity.
Defined.

(** ** Start-up *)

Lemma completed_config_coach (cfg : Config) :
  completed_config cfg !! lit "coach"
  = Some (main.setdefault (lit "system_prompt") coach.DEFAULT_SYSTEM_PROMPT
            (default ∅ (cfg !! lit "coach"))).
Proof.
  unfold completed_config. rewrite lookup_alter_eq.
  destruct (cfg !! lit "coach") as [sec|] eqn:E.
  - rewrite bool_decide_eq_true_2 by eauto. by rewrite E.
  - rewrite bool_decide_eq_false_2 by (by intros [? ?]).
    by rewrite lookup_insert_eq.
Qed.

Lemma completed_config_settings (cfg : Config) :
  coach_setting (completed_config cfg) (lit "model_name")
  = coach_setting cfg (lit "model_name")
  /\ coach_setting (completed_config cfg) (lit "system_prompt")
     = Some (default coach.DEFAULT_SYSTEM_PROMPT
               (coach_setting cfg (lit "system_prompt"))).
Proof.
  unfold coach_setting. rewrite completed_config_coach. cbn.
  unfold main.setdefault.
  destruct (cfg !! lit "coach") as [sec|]; cbn.
  - destruct (sec !! lit "system_prompt") eqn:E; cbn.
    + by rewrite E.
    + rewrite lookup_insert_eq. split; [|done].
      by rewrite lookup_insert_ne.
  - rewrite lookup_empty. cbn. rewrite lookup_insert_eq.
    split; [|done]. by rewrite lookup_insert_ne, lookup_empty.
Qed.

(** Everything before the loop, step by step. *)
Lemma startup_run (env : Env) (w : World) :
  main.startup env w =
  match yaml_load env w (lit "config/settings.yaml") with
  | Failure what => (Raise (External what), w)
  | Answer cfg =>
      match fst (coach.init (completed_config cfg) w) with
      | Raise e => (Raise e, w)
      | Ok coach =>
          match whisper_init env w (lit "small") (lit "cuda") (lit "int8") with
          | Some what => (Raise (External what), w)
          | None =>
              match fst (tts.init env (lit "models/piper")
                           (lit "en_US-amy-medium") w) with
              | Raise e => (Raise e, w)
              | Ok tts =>
                  (Ok (coach,
                       {| stt.model_size := lit "small";
                          stt.sample_rate := 16000;
                          stt.audio_dir := lit "data/audio_raw";
                          stt.device_index := None |},
                       tts),
                   printed banner w)
              end
          end
      end
  end.
Proof.
  unfold main.startup, main.load_config, stt.init.
  fold (completed_config). run_monad.
  destruct (yaml_load env w _) as [cfg|what]; [|done]. msimpl.
  change (alter _ _ _) with (completed_config cfg).
  rewrite coach_init_run. cbn [fst].
  destruct (completed_config cfg !! lit "coach") as [sec|]; [|done].
  destruct (sec !! lit "model_name"); [|done].
  destruct (sec !! lit "system_prompt"); [|done]. msimpl.
  destruct (whisper_init env w _ _ _); [done|]. msimpl.
  rewrite tts_init_run.
  destruct (fs w !! exe_path env _); [|done].
  destruct (fs w !! model_path env _ _); [|done].
  destruct (fs w !! config_path env _ _); [|done].
  cbn [fst]. unfold banner. by rewrite <- !app_assoc.
Qed.

Lemma built_coach_carries_its_settings_core (c : Config) (w w' : World)
    (self : coach.CoachEngine) :
  coach.init c w = (Ok self, w') ->
  w' = w
  /\ coach.cfg self = c
  /\ coach_setting c (lit "model_name") = Some (coach.model self)
  /\ coach_setting c (lit "system_prompt") = Some (coach.system_prompt self).
Proof.
  rewrite coach_init_run. unfold coach_setting.
  destruct (c !! lit "coach") as [sec|]; [|done]. cbn.
  destruct (sec !! lit "model_name"); [|done].
  destruct (sec !! lit "system_prompt"); [|done].
  by intros [= <- <-].
Qed.

Lemma completed_section (cfg : Config) :
  exists sec,
    completed_config cfg !! lit "coach" = Some sec
    /\ sec !! lit "model_name" = coach_setting cfg (lit "model_name")
    /\ sec !! lit "system_prompt"
       = Some (default coach.DEFAULT_SYSTEM_PROMPT
                 (coach_setting cfg (lit "system_prompt"))).
Proof.
  eexists. split; [apply completed_config_coach|].
  unfold coach_setting, main.setdefault.
  destruct (cfg !! lit "coach") as [sec|];
    cbn [default from_option id mbind option_bind].
  - destruct (sec !! lit "system_prompt") eqn:E;
      cbn [default from_option id].
    + by rewrite E.
    + rewrite lookup_insert_eq. split; [|done].
      by rewrite lookup_insert_ne.
  - rewrite lookup_empty. rewrite lookup_insert_eq.
    split; [|done]. by rewrite lookup_insert_ne, lookup_empty.
Qed.

(** X10. A start-up that fails is silent on the console: nothing was
    printed, not even the banner, no recording, transcription, reply or
    speech was started, and the process ends with that error without a
    prompt and without reading a line. *)
Theorem failed_startup_is_silent (env : Env) (w w' : World) (e : exn) :
  main.startup env w = (Raise e, w') ->
  out w' = out w
  /\ trace w' = trace w
  /\ forall stdin, main.main env stdin w = (main.Crashed e, w', stdin).
Proof.
  intros H. assert (w' = w) as ->.
  { rewrite startup_run in H.
    destruct (yaml_load env w _); [|congruence].
    destruct (fst (coach.init _ w)); [|congruence].
    destruct (whisper_init env w _ _ _); [congruence|].
    destruct (fst (tts.init env _ _ w)); [discriminate|congruence]. }
  split_and!; try done. intros stdin. unfold main.main. by rewrite H.
Qed.

Lemma failed_startup_is_silent_witness :
  main.main (Vary.with_yaml (fun _ _ => Answer Vary.cfg_no_coach) Demo.env)
    [lit "hello"] Demo.w0
  = (main.Crashed (KeyError (lit "model_name")), Demo.w0, [lit "hello"]).
Proof.
  apply (failed_startup_is_silent
           (Vary.with_yaml (fun _ _ => Answer Vary.cfg_no_coach) Demo.env)
           Demo.w0 Demo.w0).
  vm_compute. reflexivity.
Defined.

(** X11. Start-up fills in what the configuration may omit: a missing
    coach section and a missing system prompt never stop it. The only
    [KeyError] it can end with is the one for model_name, and then the
    configuration file had no model name. *)
Theorem startup_key_error_is_model_name (env : Env) (w w' : World)
    (key : str) :
  main.startup env w = (Raise (KeyError key), w') ->
  key = lit "model_name"
  /\ exists cfg,
       yaml_load env w (lit "config/settings.yaml") = Answer cfg
       /\ coach_setting cfg (lit "model_name") = None.
Proof.
  rewrite startup_run.
  destruct (yaml_load env w _) as [cfg|what]; [|done].
  rewrite coach_init_run. cbn [fst].
  destruct (completed_section cfg) as (sec & -> & Hm & ->).
  destruct (sec !! lit "model_name") eqn:Em.
  - destruct (whisper_init env w _ _ _); [done|].
    rewrite tts_init_run.
    destruct (fs w !! exe_path env _); [|done].
    destruct (fs w !! model_path env _ _); [|done].
    by destruct (fs w !! config_path env _ _).
  - intros [= <- <-]. split; [done|]. by exists cfg.
Qed.

Lemma startup_key_error_is_model_name_witness :
  lit "model_name" = lit "model_name"
  /\ exists cfg,
       yaml_load (Vary.with_yaml (fun _ _ => Answer Vary.cfg_no_coach) Demo.env)
         Demo.w0 (lit "config/settings.yaml") = Answer cfg
       /\ coach_setting cfg (lit "model_name") = None.
Proof.
  apply (startup_key_error_is_model_name
           (Vary.with_yaml (fun _ _ => Answer Vary.cfg_no_coach) Demo.env)
           Demo.w0 Demo.w0).
  vm_compute. reflexivity.
Defined.

(** X12. When start-up succeeds, the coach uses the model name of the
    configuration file and its system prompt, or the default prompt when
    the file has none; the recorder is set to the small model, 16 kHz,
    data/audio_raw and the default device; the speaker's three assets
    exist; the console has the three lines of the banner and nothing
    else new; and no recording, transcription, reply or speech was
    started. *)
Theorem startup_builds_from_the_configuration (env : Env) (w w' : World)
    (coach : coach.CoachEngine) (stt : stt.SpeechToText)
    (tts : tts.TextToSpeech) :
  main.startup env w = (Ok (coach, stt, tts), w') ->
  (exists cfg,
     yaml_load env w (lit "config/settings.yaml") = Answer cfg
     /\ coach_setting cfg (lit "model_name") = Some (coach.model coach)
     /\ coach.system_prompt coach
        = default coach.DEFAULT_SYSTEM_PROMPT
            (coach_setting cfg (lit "system_prompt")))
  /\ stt = {| stt.model_size := lit "small"; stt.sample_rate := 16000;
              stt.audio_dir := lit "data/audio_raw";
              stt.device_index := None |}
  /\ assets_present env (lit "models/piper") (lit "en_US-amy-medium") (fs w')
  /\ out w' = out w ++ banner
  /\ trace w' = trace w.
Proof.
  rewrite startup_run.
  destruct (yaml_load env w _) as [cfg|what]; [|done].
  destruct (coach.init (completed_config cfg) w) as [[c|e] w1] eqn:Ec;
    cbn [fst]; [|done].
  apply built_coach_carries_its_settings_core in Ec as (_ & _ & Hm & Hp).
  destruct (completed_config_settings cfg) as [Hm' Hp'].
  rewrite Hm' in Hm. rewrite Hp' in Hp. injection Hp as Hp.
  destruct (whisper_init env w _ _ _); [done|].
  destruct (tts.init env _ _ w) as [[t|e] w2] eqn:Et; cbn [fst]; [|done].
  intros [= <- <- <- <-]. split; [by exists cfg|]. split; [done|].
  cbn [printed fs out trace]. split; [|done].
  rewrite tts_init_run in Et. unfold assets_present.
  destruct (fs w !! exe_path env _); [|done].
  destruct (fs w !! model_path env _ _); [|done].
  destruct (fs w !! config_path env _ _); [|done]. eauto.
Qed.

Lemma startup_builds_from_the_configuration_witness :
  exists coach stt tts w',
    main.startup Demo.env Demo.w0 = (Ok (coach, stt, tts), w')
    /\ coach.model coach = lit "llama3.1:8b"
    /\ coach.system_prompt coach = coach.DEFAULT_SYSTEM_PROMPT
    /\ out w' = banner.
Proof.
  destruct (main.startup Demo.env Demo.w0) as [[[[c s] t]|e] w'] eqn:E;
    [|vm_compute in E; discriminate].
  destruct (startup_builds_from_the_configuration Demo.env Demo.w0 w' c s t E)
    as ((cfg & Hy & Hm & Hp) & _ & _ & Hw & _).
  exists c, s, t, w'. split; [reflexivity|].
  injection Hy as <-. split_and!.
  - vm_compute in Hm. by injection Hm.
  - rewrite Hp. reflexivity.
  - rewrite Hw. reflexivity.
Defined.

(** ** Recording and transcription *)

Lemma spaced_blank (texts : list str) :
  Forall (fun t => t = []) texts -> blank (spaced texts) = true.
Proof.
  induction texts as [|t rest IH]; [done|].
  intros [-> Hrest]%Forall_cons. destruct rest as [|t' rest']; [done|].
  change (spaced ([] :: t' :: rest')) with (lit " " ++ spaced (t' :: rest')).
  unfold blank in *. rewrite forallb_app. rewrite IH by done. done.
Qed.

Lemma transcript_of_silence (segments : list Segment) :
  Forall (fun seg => blank (seg_text seg) = true) segments ->
  transcript segments = [].
Proof.
  intros H. unfold transcript. apply strip_blank, spaced_blank.
  induction H as [|seg rest Hseg _ IH]; [done|].
  cbn [map]. apply Forall_cons. split; [by apply strip_blank|done].
Qed.

(** X13. When every segment the recognition backend yields is
    whitespace only, and in particular when it yields none, [transcribe]
    returns the empty string. *)
Theorem silence_transcribes_to_empty (env : Env) (self : stt.SpeechToText)
    (wav : path) (language : option str) (beam_size : Z) (vad_filter : bool)
    (w : World) (segments : list Segment) :
  whisper_transcribe env (logged [EvTranscribe wav language] w)
    wav language vad_filter beam_size = Answer segments ->
  Forall (fun seg => blank (seg_text seg) = true) segments ->
  stt.transcribe env self wav language beam_size vad_filter w
  = (Ok [], logged [EvTranscribe wav language] w).
Proof.
  intros Hw Hb. rewrite transcribe_run. cbv zeta. rewrite Hw.
  by rewrite transcript_of_silence.
Qed.

Lemma silence_transcribes_to_empty_witness :
  stt.transcribe (Demo.mk_env Demo.chat_ok Vary.whisper_silence Demo.synth_ok)
    Demo.the_stt (lit "rec.wav") None 1 true Demo.w0
  = (Ok [], logged [EvTranscribe (lit "rec.wav") None] Demo.w0).
Proof.
  apply (silence_transcribes_to_empty
           (Demo.mk_env Demo.chat_ok Vary.whisper_silence Demo.synth_ok)
           Demo.the_stt (lit "rec.wav") None 1 true Demo.w0
           [ {| seg_text := lit "  " |}; {| seg_text := [] |} ]).
  - reflexivity.
  - repeat (apply Forall_cons; split; [reflexivity|]). apply Forall_nil_2.
Defined.

(** X14. A recording that succeeds writes exactly one file, inside the
    audio directory: a mono, 16-bit WAV at the configured sample rate
    holding the samples the device delivered for
    [sample_rate * seconds] frames. Every other file is as before, and
    the path of the new file is what is returned. *)
Theorem recording_writes_one_wave_file (env : Env) (self : stt.SpeechToText)
    (seconds : Z) (w w' : World) (p : path) :
  stt.record_wav env self seconds w = (Ok p, w') ->
  exists file_name audio w_rec,
    p = path_join env (stt.audio_dir self) file_name
    /\ sd_rec env w_rec (stt.sample_rate self * seconds)%Z
         (stt.sample_rate self) (stt.device_index self) = Answer audio
    /\ fs w' !! p = Some (WaveFile 1 2 (stt.sample_rate self) audio)
    /\ (forall q, q <> p -> fs w' !! q = fs w !! q)
    /\ trace w' = trace w ++ [EvRecord seconds].
Proof.
  rewrite record_wav_run. cbv zeta.
  destruct (sd_rec env _ _ _ _) as [audio|what] eqn:Hrec; [|done].
  intros [= <- <-]. eexists _, audio, _. split; [reflexivity|].
  split; [exact Hrec|]. cbn [fs trace logged].
  split; [apply lookup_insert_eq|]. split; [|done].
  intros q Hq. by rewrite lookup_insert_ne.
Qed.

Lemma recording_writes_one_wave_file_witness :
  exists file_name audio w_rec,
    lit "data/audio_raw/rec_1700000000_3f2a9c.wav"
    = path_join Demo.env (stt.audio_dir Demo.the_stt) file_name
    /\ sd_rec Demo.env w_rec (stt.sample_rate Demo.the_stt * 6)%Z
         (stt.sample_rate Demo.the_stt) (stt.device_index Demo.the_stt)
       = Answer audio
    /\ fs (snd (stt.record_wav Demo.env Demo.the_stt 6 Demo.w0))
       !! lit "data/audio_raw/rec_1700000000_3f2a9c.wav"
       = Some (WaveFile 1 2 (stt.sample_rate Demo.the_stt) audio)
    /\ (forall q, q <> lit "data/audio_raw/rec_1700000000_3f2a9c.wav" ->
          fs (snd (stt.record_wav Demo.env Demo.the_stt 6 Demo.w0)) !! q
          = fs Demo.w0 !! q)
    /\ trace (snd (stt.record_wav Demo.env Demo.the_stt 6 Demo.w0))
       = trace Demo.w0 ++ [EvRecord 6].
Proof.
  apply (recording_writes_one_wave_file Demo.env Demo.the_stt 6 Demo.w0).
  vm_compute. reflexivity.
Defined.



(** ** The device list *)

Lemma collect_ok (idx : nat) (devs : list devices.Device) (acc : list str) :
  Forall (fun d => devices.is_input d = true -> is_Some (devices.name d)) devs ->
  exists new,
    devices.collect idx devs acc = Ok (acc ++ new)
    /\ length new = length (filter (fun d => devices.is_input d = true) devs)
    /\ forall i d, devs !! i = Some d -> devices.is_input d = true ->
         exists n, devices.name d = Some n
                   /\ devices.device_line (idx + i) n (devices.input_channels d)
                      ∈ new.
Proof.
  revert idx acc. induction devs as [|dev rest IH]; intros idx acc Hn.
  - exists []. rewrite app_nil_r. split_and!; try done.
  - apply Forall_cons in Hn as [Hdev Hrest]. cbn [devices.collect].
    rewrite filter_cons. unfold devices.is_input in *.
    destruct (0 <? devices.input_channels dev)%Z eqn:Hin.
    + destruct (Hdev eq_refl) as [n Hname]. rewrite Hname.
      destruct (IH (S idx) (acc ++ [devices.device_line idx n
                                      (devices.input_channels dev)]) Hrest)
        as (new & Hrun & Hlen & Hall).
      exists (devices.device_line idx n (devices.input_channels dev) :: new).
      rewrite Hrun, <- app_assoc. split; [done|].
      rewrite decide_True by done. cbn [length]. split; [by rewrite Hlen|].
      intros [|i] d Hd Hd'.
      * injection Hd as <-. exists n. rewrite Nat.add_0_r.
        split; [done|apply list_elem_of_here].
      * destruct (Hall i d Hd Hd') as (n' & Hn' & Hel). exists n'.
        split; [done|]. replace (idx + S i)%nat with (S idx + i)%nat by lia.
        by apply list_elem_of_further.
    + destruct (IH (S idx) acc Hrest) as (new & Hrun & Hlen & Hall).
      exists new. split; [done|]. rewrite decide_False by done.
      split; [done|]. intros [|i] d Hd Hd'.
      * injection Hd as <-. congruence.
      * destruct (Hall i d Hd Hd') as (n' & Hn' & Hel). exists n'.
        split; [done|]. by replace (idx + S i)%nat with (S idx + i)%nat by lia.
Qed.

(** X16. When every device with input channels has a name,
    [list_input_devices] returns one line per such device and none for
    the others, and the number in brackets is the position of the device
    in the full list that [query_devices] gave, not its rank among the
    input devices. *)
Theorem device_lines_keep_the_device_index (devs : list devices.Device) :
  Forall (fun d => devices.is_input d = true -> is_Some (devices.name d)) devs ->
  exists lines,
    devices.list_input_devices (Answer devs) = Ok lines
    /\ length lines
       = length (filter (fun d => devices.is_input d = true) devs)
    /\ forall i d, devs !! i = Some d -> devices.is_input d = true ->
         exists n, devices.name d = Some n
                   /\ devices.device_line i n (devices.input_channels d)
                      ∈ lines.
Proof.
  intros H. destruct (collect_ok 0 devs [] H) as (new & Hrun & Hlen & Hall).
  exists new. split; [exact Hrun|]. split; [done|]. exact Hall.
Qed.

Lemma device_lines_keep_the_device_index_witness :
  devices.list_input_devices
    (Answer [ {| devices.name := Some (lit "Speakers");
                 devices.max_input_channels := Some 0%Z |};
              {| devices.name := None; devices.max_input_channels := None |};
              {| devices.name := Some (lit "Mic");
                 devices.max_input_channels := Some 2%Z |} ])
  = Ok [lit "[2] Mic  (in=2)"].
Proof.
  destruct (device_lines_keep_the_device_index
              [ {| devices.name := Some (lit "Speakers");
                   devices.max_input_channels := Some 0%Z |};
                {| devices.name := None; devices.max_input_channels := None |};
                {| devices.name := Some (lit "Mic");
                   devices.max_input_channels := Some 2%Z |} ])
    as (lines & Hrun & _).
  - repeat (apply Forall_cons; split; [cbn; intros; try done; eauto|]).
    apply Forall_nil_2.
  - vm_compute. reflexivity.
Defined.

Lemma collect_error (idx : nat) (devs : list devices.Device)
    (acc : list str) (e : exn) :
  devices.collect idx devs acc = Raise e ->
  e = KeyError (lit "name")
  /\ exists d, d ∈ devs /\ devices.is_input d = true /\ devices.name d = None.
Proof.
  revert idx acc. induction devs as [|dev rest IH]; intros idx acc; [done|].
  cbn [devices.collect].
  destruct (0 <? devices.input_channels dev)%Z eqn:Hin.
  - destruct (devices.name dev) eqn:Hname.
    + intros H. apply IH in H as (-> & d & Hd & Hi & Hn). split; [done|].
      exists d. split; [by apply list_elem_of_further|done].
    + intros [= <-]. split; [done|]. exists dev.
      split; [apply list_elem_of_here|done].
  - intros H. apply IH in H as (-> & d & Hd & Hi & Hn). split; [done|].
    exists d. split; [by apply list_elem_of_further|done].
Qed.

(** X17. [list_input_devices] can fail in two ways only: the device
    query itself failed, or a device that has input channels has no name.
    A device without input channels is never asked for its name. *)
Theorem device_listing_fails_only_on_unnamed_input
    (query : answer (list devices.Device)) (e : exn) :
  devices.list_input_devices query = Raise e ->
  match query with
  | Failure what => e = External what
  | Answer devs =>
      e = KeyError (lit "name")
      /\ exists d, d ∈ devs /\ devices.is_input d = true
                   /\ devices.name d = None
  end.
Proof.
  destruct query as [devs|what]; cbn [devices.list_input_devices].
  - apply collect_error.
  - by intros [= <-].
Qed.

Lemma device_listing_fails_only_on_unnamed_input_witness :
  KeyError (lit "name") = KeyError (lit "name")
  /\ exists d,
       d ∈ [ {| devices.name := None;
                devices.max_input_channels := Some 1%Z |} ]
       /\ devices.is_input d = true /\ devices.name d = None.
Proof.
  apply (device_listing_fails_only_on_unnamed_input
           (Answer [ {| devices.name := None;
                        devices.max_input_channels := Some 1%Z |} ])).
  reflexivity.
Defined.

(** ** More on the turn and the loop *)

(** X18. When the user presses ENTER and the recording transcribes to the
    empty string, the turn prints the empty transcript and the notice and
    goes back to the prompt: the reply engine and the speaker are not
    called, and the recording stays on disk. *)
Theorem empty_transcript_skips_reply_and_speech (env : Env)
    (coach : coach.CoachEngine) (stt : stt.SpeechToText)
    (tts : tts.TextToSpeech) (line : str) (w w1 w2 : World) (wav : path) :
  lower_on_ascii env ->
  blank line = true ->
  stt.record_wav env stt 6 w = (Ok wav, w1) ->
  stt.transcribe env stt wav (Some (lit "it")) 1 true w1 = (Ok [], w2) ->
  exists w',
    main.loop_body env coach stt tts line w = (Ok main.Continue, w')
    /\ trace w' = trace w ++ [EvRecord 6; EvTranscribe wav (Some (lit "it"))]
    /\ out w' = out w2 ++ [ lit "[Transcript] " ++ nl;
                            (lit "(Got empty input, try again)" ++ nl) ++ nl ]
    /\ is_Some (fs w' !! wav).
Proof.
  intros Hlow Hb Hrec Htr.
  rewrite loop_body_voice
    by (rewrite (strip_blank line Hb); auto using empty_is_not_exit).
  rewrite Hrec, Htr. cbv zeta. cbn [falsy].
  eexists. split; [reflexivity|]. cbn [printed fs out trace].
  rewrite record_wav_run in Hrec. cbv zeta in Hrec.
  destruct (sd_rec env _ _ _ _) as [audio|what]; [|done].
  injection Hrec as <- <-.
  rewrite transcribe_run in Htr. cbv zeta in Htr.
  destruct (whisper_transcribe env _ _ _ _ _) as [segs|what]; [|done].
  injection Htr as _ <-. cbn [logged fs out trace].
  split_and!.
  - by rewrite <- app_assoc.
  - by rewrite app_nil_r, <- !app_assoc.
  - rewrite lookup_insert_eq. eauto.
Qed.

Lemma empty_transcript_skips_reply_and_speech_witness :
  exists w',
    main.loop_body
      (Demo.mk_env Demo.chat_ok Vary.whisper_silence Demo.synth_ok)
      Demo.the_coach Demo.the_stt Demo.the_tts (lit "  ") Demo.w0
    = (Ok main.Continue, w')
    /\ trace w' =
       trace Demo.w0 ++
       [ EvRecord 6;
         EvTranscribe (lit "data/audio_raw/rec_1700000000_3f2a9c.wav")
           (Some (lit "it")) ].
Proof.
  destruct (empty_transcript_skips_reply_and_speech
              (Demo.mk_env Demo.chat_ok Vary.whisper_silence Demo.synth_ok)
              Demo.the_coach Demo.the_stt Demo.the_tts (lit "  ") Demo.w0
              (snd (stt.record_wav
                      (Demo.mk_env Demo.chat_ok Vary.whisper_silence
                         Demo.synth_ok) Demo.the_stt 6 Demo.w0))
              (snd (stt.transcribe
                      (Demo.mk_env Demo.chat_ok Vary.whisper_silence
                         Demo.synth_ok) Demo.the_stt
                      (lit "data/audio_raw/rec_1700000000_3f2a9c.wav")
                      (Some (lit "it")) 1 true
                      (snd (stt.record_wav
                              (Demo.mk_env Demo.chat_ok Vary.whisper_silence
                                 Demo.synth_ok) Demo.the_stt 6 Demo.w0))))
              (lit "data/audio_raw/rec_1700000000_3f2a9c.wav"))
    as (w' & Hrun & Htr & _).
  - intros s _. reflexivity.
  - reflexivity.
  - vm_compute. reflexivity.
  - vm_compute. reflexivity.
  - exists w'. split; [exact Hrun|exact Htr].
Defined.



(** X20. In a turn on a typed line that completes, the reply engine
    received the stripped line as the user message, both calls of the
    speaker received exactly the reply, that is the stripped content of
    the backend's answer, and the turn ends with the loop going on. *)
Theorem typed_turn_passes_the_reply_through (env : Env)
    (coach : coach.CoachEngine) (stt : stt.SpeechToText)
    (tts : tts.TextToSpeech) (line : str) (w w' : World) (c : main.Control) :
  main.is_exit env (strip line) = false ->
  strip line <> [] ->
  main.loop_body env coach stt tts line w = (Ok c, w') ->
  c = main.Continue
  /\ exists a runs1 runs2,
       ollama_chat env
         (logged [EvReply (strip line);
                  EvChat (coach.model coach) (request coach (strip line))] w)
         (coach.model coach) (request coach (strip line)) = Answer a
       /\ trace w' = trace w ++
            EvReply (strip line)
            :: EvChat (coach.model coach)
                 [ {| role := lit "system";
                      content := coach.system_prompt coach |};
                   {| role := lit "user"; content := strip line |} ]
            :: EvSpeak (Some (strip (message_content a))) :: runs1
            ++ EvSpeak (Some (strip (message_content a))) :: runs2
       /\ forallb is_run runs1 = true
       /\ forallb is_run runs2 = true.
Proof.
  intros Hx Hne. rewrite loop_body_text by done. intros H.
  apply reply_and_speak_shape in H as (evs & Htr & _ & Hok).
  destruct (Hok c eq_refl) as (-> & _ & a & runs1 & runs2 & Ha & -> & R1 & R2).
  split; [done|]. by exists a, runs1, runs2.
Qed.

Lemma typed_turn_passes_the_reply_through_witness :
  main.Continue = main.Continue
  /\ exists a runs1 runs2,
       ollama_chat Demo.env
         (logged [EvReply (strip (lit " hello "));
                  EvChat (coach.model Demo.the_coach)
                    (request Demo.the_coach (strip (lit " hello ")))] Demo.w0)
         (coach.model Demo.the_coach)
         (request Demo.the_coach (strip (lit " hello "))) = Answer a
       /\ trace (snd (main.loop_body Demo.env Demo.the_coach Demo.the_stt
                        Demo.the_tts (lit " hello ") Demo.w0))
          = trace Demo.w0 ++
            EvReply (strip (lit " hello "))
            :: EvChat (coach.model Demo.the_coach)
                 [ {| role := lit "system";
                      content := coach.system_prompt Demo.the_coach |};
                   {| role := lit "user"; content := strip (lit " hello ") |} ]
            :: EvSpeak (Some (strip (message_content a))) :: runs1
            ++ EvSpeak (Some (strip (message_content a))) :: runs2
       /\ forallb is_run runs1 = true
       /\ forallb is_run runs2 = true.
Proof.
  apply (typed_turn_passes_the_reply_through Demo.env Demo.the_coach
           Demo.the_stt Demo.the_tts (lit " hello ") Demo.w0).
  - reflexivity.
  - discriminate.
  - vm_compute. reflexivity.
Defined.

Lemma play_wav_error (env : Env) (wav : path) (w w' : World) (e : exn) :
  tts._play_wav env wav w = (Raise e, w') -> exists what, e = External what.
Proof.
  unfold tts._play_wav.
  destruct (bool_decide _); [|destruct (bool_decide _)].
  - cbv [mbind M_bind mret M_ret]. rewrite run_player_run.
    destruct (run_player env _ _); intros [= <- <-]. by eexists.
  - cbv [mbind M_bind mret M_ret]. rewrite run_player_run.
    destruct (run_player env _ _); intros [= <- <-]. by eexists.
  - destruct (try_players_ok env
                [ [lit "aplay"; wav]; [lit "paplay"; wav];
                  [lit "ffplay"; lit "-autoexit"; lit "-nodisp"; wav] ]
                wav w) as [w'' ->]. done.
Qed.

Lemma speak_error (env : Env) (self : tts.TextToSpeech) (text : option str)
    (w w' : World) (e : exn) :
  tts.speak env self text w = (Raise e, w') -> turn_error e.
Proof.
  destruct text as [[|c text]|]; [by rewrite speak_falsy by auto| |
                                  by rewrite speak_falsy by auto].
  rewrite speak_run by done. cbv zeta.
  destruct (fs w !! _); [by intros [= <- <-]|].
  destruct (_ !! _); [by intros [= <- <-]|].
  destruct (run_synth env _ _ _ _) as [what|rc err o]; [by intros [= <- <-]|].
  destruct (negb (rc =? 0)%Z || is_removed o); [by intros [= <- <-]|].
  destruct (tts._play_wav env _ _) as [[[]|e'] w5] eqn:E; [done|].
  intros [= <- <-]. by apply play_wav_error in E as [what ->].
Qed.

Lemma reply_and_speak_error (env : Env) (coach : coach.CoachEngine)
    (tts : tts.TextToSpeech) (u : str) (w w' : World) (e : exn) :
  reply_and_speak env coach tts u w = (Raise e, w') -> turn_error e.
Proof.
  unfold reply_and_speak. cbv [mbind M_bind mret M_ret].
  rewrite reply_run. cbv zeta.
  destruct (ollama_chat env _ _ _); [|by intros [= <- <-]].
  rewrite print_run.
  destruct (tts.speak env tts _ _) as [[[]|e1] w1] eqn:E1;
    [|intros [= <- <-]; by apply speak_error in E1].
  destruct (tts.speak env tts _ w1) as [[[]|e2] w2] eqn:E2; [done|].
  intros [= <- <-]. by apply speak_error in E2.
Qed.

Lemma loop_body_error (env : Env) (coach : coach.CoachEngine)
    (stt : stt.SpeechToText) (tts : tts.TextToSpeech) (line : str)
    (w w' : World) (e : exn) :
  main.loop_body env coach stt tts line w = (Raise e, w') -> turn_error e.
Proof.
  destruct (main.is_exit env (strip line)) eqn:Hx;
    [by rewrite loop_body_exit|].
  destruct (decide (strip line = [])) as [Hu|Hu].
  - rewrite loop_body_voice by done. rewrite record_wav_run. cbv zeta.
    destruct (sd_rec env _ _ _ _); [|by intros [= <- <-]].
    rewrite transcribe_run. cbv zeta.
    destruct (whisper_transcribe env _ _ _ _ _); [|by intros [= <- <-]].
    destruct (falsy _); [done|]. apply reply_and_speak_error.
  - rewrite loop_body_text by done. apply reply_and_speak_error.
Qed.

Lemma loop_body_break (env : Env) (coach : coach.CoachEngine)
    (stt : stt.SpeechToText) (tts : tts.TextToSpeech) (line : str)
    (w w' : World) :
  main.loop_body env coach stt tts line w = (Ok main.Break, w') ->
  main.is_exit env (strip line) = true.
Proof.
  destruct (main.is_exit env (strip line)) eqn:Hx; [done|].
  assert (forall u w0, reply_and_speak env coach tts u w0
                       <> (Ok main.Break, w')) as Hno.
  { intros u w0 H. apply reply_and_speak_shape in H as (evs & _ & _ & Hok).
    by destruct (Hok _ eq_refl) as [? _]. }
  destruct (decide (strip line = [])) as [Hu|Hu].
  - rewrite loop_body_voice by done.
    destruct (stt.record_wav env stt 6 w) as [[wav|e1] w1]; [|done].
    destruct (stt.transcribe env stt wav _ _ _ w1) as [[t|e2] w2]; [|done].
    cbv zeta. destruct (falsy t); [done|]. intros H. by apply Hno in H.
  - rewrite loop_body_text by done. intros H. by apply Hno in H.
Qed.

(** X22. The loop ends normally only on an exit command: the lines read
    before it were not exit commands, the lines after it are left unread,
    and the last thing on the console is the farewell. *)
Theorem loop_ends_only_on_an_exit_command (env : Env)
    (coach : coach.CoachEngine) (stt : stt.SpeechToText)
    (tts : tts.TextToSpeech) (stdin rest : list str) (w w' : World) :
  main.conversation_loop env coach stt tts stdin w = (main.Ended, w', rest) ->
  exists before line,
    stdin = before ++ line :: rest
    /\ main.is_exit env (strip line) = true
    /\ Forall (fun l => main.is_exit env (strip l) = false) before
    /\ last (out w') = Some (lit "Session ended." ++ nl).
Proof.
  revert w w' rest.
  induction stdin as [|l ls IH]; intros w w' rest; [done|].
  cbn [main.conversation_loop].
  destruct (main.loop_body env coach stt tts l _) as [[[]|e] w2] eqn:E.
  - intros [= <- <-]. pose proof (loop_body_break _ _ _ _ _ _ _ E) as Hx.
    rewrite loop_body_exit in E by done. injection E as <-.
    exists [], l. split_and!; try done. cbn [printed out]. apply last_snoc.
  - intros H. apply IH in H as (before & line & -> & Hx & Hb & Hl).
    exists (l :: before), line. split_and!; try done.
    apply Forall_cons. split; [|done].
    destruct (main.is_exit env (strip l)) eqn:Hl'; [|done].
    by rewrite loop_body_exit in E.
  - done.
Qed.

Lemma loop_ends_only_on_an_exit_command_witness :
  exists before line,
    [lit "hello"; lit " EXIT "; lit "more"] = before ++ line :: [lit "more"]
    /\ main.is_exit Demo.env (strip line) = true
    /\ Forall (fun l => main.is_exit Demo.env (strip l) = false) before
    /\ last (out (snd (fst (main.conversation_loop Demo.env Demo.the_coach
                              Demo.the_stt Demo.the_tts
                              [lit "hello"; lit " EXIT "; lit "more"]
                              Demo.w0))))
       = Some (lit "Session ended." ++ nl).
Proof.
  apply (loop_ends_only_on_an_exit_command Demo.env Demo.the_coach
           Demo.the_stt Demo.the_tts [lit "hello"; lit " EXIT "; lit "more"]
           [lit "more"] Demo.w0).
  vm_compute. reflexivity.
Defined.

(** X23. The process ends with the end-of-input error only when the
    console ran dry: every line was read, none of them was an exit
    command, no turn failed (each went back to the prompt), and the last
    thing written is the prompt that found no line. *)
Theorem eof_means_every_line_was_read (env : Env)
    (coach : coach.CoachEngine) (stt : stt.SpeechToText)
    (tts : tts.TextToSpeech) (stdin rest : list str) (w w' : World) :
  main.conversation_loop env coach stt tts stdin w
  = (main.Crashed EOFError, w', rest) ->
  rest = []
  /\ Forall (fun l => main.is_exit env (strip l) = false) stdin
  /\ turns_complete env coach stt tts stdin w
  /\ last (out w') = Some main.prompt.
Proof.
  revert w w' rest.
  induction stdin as [|l ls IH]; intros w w' rest;
    cbn [main.conversation_loop turns_complete].
  - intros [= <- <-]. split_and!; try done. cbn. apply last_snoc.
  - change (snd (write_out main.prompt w)) with (printed [main.prompt] w).
    destruct (main.loop_body env coach stt tts l _) as [[[]|e] w2] eqn:E.
    + done.
    + intros H. apply IH in H as (-> & Hall & Hturns & Hl).
      split_and!; try done; [|by exists w2].
      apply Forall_cons. split; [|done].
      destruct (main.is_exit env (strip l)) eqn:Hl'; [|done].
      by rewrite loop_body_exit in E.
    + intros [= -> <- <-]. by apply loop_body_error in E.
Qed.

Lemma eof_means_every_line_was_read_witness :
  @nil str = []
  /\ Forall (fun l => main.is_exit Demo.env (strip l) = false) [lit "hello"]
  /\ turns_complete Demo.env Demo.the_coach Demo.the_stt Demo.the_tts
       [lit "hello"] Demo.w0
  /\ last (out (snd (fst (main.conversation_loop Demo.env Demo.the_coach
                            Demo.the_stt Demo.the_tts [lit "hello"] Demo.w0))))
     = Some main.prompt.
Proof.
  apply (eof_means_every_line_was_read Demo.env Demo.the_coach Demo.the_stt
           Demo.the_tts [lit "hello"] [] Demo.w0).
  vm_compute. reflexivity.
Defined.

(** ** The quick test of stt.py *)

(** X24. When the quick test of stt.py runs to its end, the device
    lines were printed under their heading, one recording of 6 seconds
    was made and transcribed in English, the recording is on disk, and
    the last two things on the console are the transcript heading and
    then what [transcribe] returned, or the word (empty) in its place
    when that is the empty string. *)
Theorem quick_test_reports_the_transcript (env : Env)
    (query : answer (list devices.Device)) (w w' : World) :
  stt_script.quick_test env query w = (Ok tt, w') ->
  exists lines wav w1 text w2,
    devices.list_input_devices query = Ok lines
    /\ stt.record_wav env test_recorder 6
         (printed [ lit "Available input devices:" ++ nl;
                    join nl lines ++ nl ] w) = (Ok wav, w1)
    /\ stt.transcribe env test_recorder wav (Some (lit "en")) 1 true w1
       = (Ok text, w2)
    /\ out w' = out w2 ++
         [ (nl ++ lit "[TRANSCRIPT]") ++ nl;
           (if falsy text then lit "(empty)" else text) ++ nl ]
    /\ trace w' = trace w ++ [EvRecord 6; EvTranscribe wav (Some (lit "en"))]
    /\ fs w' = fs w1
    /\ is_Some (fs w' !! wav).
Proof.
  unfold stt_script.quick_test, stt_script.lift, stt.init.
  cbv [mbind M_bind mret M_ret raise get_world]. rewrite !print_run.
  destruct (devices.list_input_devices query) as [lines|e]; [|done].
  rewrite print_run, printed_printed. cbn [app].
  destruct (whisper_init env _ _ _ _); [done|].
  fold test_recorder.
  destruct (stt.record_wav env test_recorder 6 _) as [[wav|e1] w1] eqn:Hrec;
    [|done].
  destruct (stt.transcribe env test_recorder wav _ _ _ w1)
    as [[text|e2] w2] eqn:Htr; [|done].
  rewrite !print_run, printed_printed. intros [= <-].
  exists lines, wav, w1, text, w2. split_and!; try done.
  - rewrite record_wav_run in Hrec. cbv zeta in Hrec.
    destruct (sd_rec env _ _ _ _); [|done]. injection Hrec as <- <-.
    rewrite transcribe_run in Htr. cbv zeta in Htr.
    destruct (whisper_transcribe env _ _ _ _ _); [|done].
    injection Htr as _ <-. cbn [logged printed trace].
    by rewrite <- app_assoc.
  - rewrite transcribe_run in Htr. cbv zeta in Htr.
    destruct (whisper_transcribe env _ _ _ _ _); [|done].
    by injection Htr as _ <-.
  - rewrite record_wav_run in Hrec. cbv zeta in Hrec.
    destruct (sd_rec env _ _ _ _); [|done]. injection Hrec as <- <-.
    rewrite transcribe_run in Htr. cbv zeta in Htr.
    destruct (whisper_transcribe env _ _ _ _ _); [|done].
    injection Htr as _ <-. cbn [logged printed fs].
    rewrite lookup_insert_eq. eauto.
Qed.

Lemma quick_test_reports_the_transcript_witness :
  exists w',
    stt_script.quick_test
      (Demo.mk_env Demo.chat_ok Vary.whisper_silence Demo.synth_ok)
      (Answer []) Demo.w0 = (Ok tt, w')
    /\ out w' =
       [ lit "Available input devices:" ++ nl;
         nl;
         lit "[STT] Recording 6.0s at 16000 Hz..." ++ nl;
         lit "[STT] Done recording." ++ nl;
         (nl ++ lit "[TRANSCRIPT]") ++ nl;
         lit "(empty)" ++ nl ].
Proof.
  destruct (stt_script.quick_test
              (Demo.mk_env Demo.chat_ok Vary.whisper_silence Demo.synth_ok)
              (Answer []) Demo.w0) as [[[]|e] w'] eqn:E;
    [|vm_compute in E; discriminate].
  destruct (quick_test_reports_the_transcript
              (Demo.mk_env Demo.chat_ok Vary.whisper_silence Demo.synth_ok)
              (Answer []) Demo.w0 w' E)
    as (lines & wav & w1 & text & w2 & _ & _ & _ & _ & _ & _ & _).
  exists w'. split; [reflexivity|].
  vm_compute in E. injection E as <-. reflexivity.
Defined.
